(** * kicad-jlcpcb-fab-generator: a shallow embedding of the fabrication pipeline

    The script drives an external CAD tool through six steps and post-processes
    two of its exports.  Everything the script does to the outside world is
    made explicit here: the file system, the processes it starts, the lines it
    prints.  Python exceptions are values of [PyExn]; a computation is a
    function from a state to a result and a new state.

    Conventions of the model:
    - a [str] is a [string] (its UTF-8 encoding), [bytes] are a [list byte];
    - the file system is a finite map from paths to the text of regular files
      and a finite set of directories; opening a file for writing creates or
      empties it, writing appends to it, reading or removing a file that is
      not there raises [FileNotFoundError]; removing a directory tree takes
      the paths apart into their names to find what lies below it;
    - the command line is taken as parsed: [main] is the script run on
      arguments that click has accepted;
    - the external programs, [csv.reader] and [glob.glob] are not part of the
      script: they are variables of the sections below, and every statement
      holds for all of them;
    - the context handed to each step is a named tuple whose last field refers
      to a dict the steps share; it is threaded through the steps as part of
      the state ([Run]), so that what a step does to it can be stated. *)

From stdpp Require Import gmap strings list.
From Stdlib Require Import ZArith Strings.Byte.

Local Open Scope Z_scope.
Local Open Scope string_scope.

(** ** Text *)

(** The double-quote character, as a one-character text. *)
Definition dq : string := String (Ascii.ascii_of_nat 34) EmptyString.
(** The line feed. *)
Definition nl : string := String (Ascii.ascii_of_nat 10) EmptyString.
(** The escape character that starts a terminal colour sequence. *)
Definition esc : string := String (Ascii.ascii_of_nat 27) EmptyString.

(** [sep.join(l)] *)
Fixpoint join (sep : string) (l : list string) : string :=
  match l with
  | [] => EmptyString
  | [x] => x
  | x :: xs => x +:+ sep +:+ join sep xs
  end.

(** A Python [str] is kept as its UTF-8 encoding.  [bytes.decode()] with the
    default codec and the default (strict) error handling accepts exactly the
    well-formed UTF-8 sequences and raises on the others. *)
Definition in_range (lo hi : N) (b : byte) : bool :=
  (lo <=? Byte.to_N b)%N && (Byte.to_N b <=? hi)%N.

Fixpoint utf8_valid (bs : list byte) : bool :=
  match bs with
  | [] => true
  | b0 :: r0 =>
    if in_range 0x00 0x7F b0 then utf8_valid r0 else
    match r0 with
    | [] => false
    | b1 :: r1 =>
      if in_range 0xC2 0xDF b0 then in_range 0x80 0xBF b1 && utf8_valid r1 else
      match r1 with
      | [] => false
      | b2 :: r2 =>
        if in_range 0xE0 0xEF b0 then
          (if in_range 0xE0 0xE0 b0 then in_range 0xA0 0xBF b1
           else if in_range 0xED 0xED b0 then in_range 0x80 0x9F b1
           else in_range 0x80 0xBF b1)
          && in_range 0x80 0xBF b2 && utf8_valid r2
        else
        match r2 with
        | [] => false
        | b3 :: r3 =>
          in_range 0xF0 0xF4 b0
          && (if in_range 0xF0 0xF0 b0 then in_range 0x90 0xBF b1
              else if in_range 0xF4 0xF4 b0 then in_range 0x80 0x8F b1
              else in_range 0x80 0xBF b1)
          && in_range 0x80 0xBF b2 && in_range 0x80 0xBF b3 && utf8_valid r3
        end
      end
    end
  end.

(** ** Exceptions *)

Inductive PyExn : Type :=
  | ScriptError (title details : string) (error_code : Z)
  | KeyError (key : string)
  | IndexError
  | StopIteration
  | FileNotFoundError (filename : string)
  | FileExistsError (filename : string)
  | UnicodeDecodeError
  | OSError (program : string).

(** [isinstance(e, ScriptError)] *)
Definition is_ScriptError (e : PyExn) : bool :=
  match e with ScriptError _ _ _ => true | _ => false end.

(** ** The outside world *)

(** Files and directories are kept by the text of their paths, as the
    script and the programs it starts spell them: [files] gives the text
    of every path that opens as a regular file, and [dirs] is the set of
    paths at which [os.path.isdir] answers yes.  Only [shutil.rmtree], which
    has to find what lies below a directory, looks into the paths (see
    [under]). *)
Record FileSystem : Type := mkFS {
  files : gmap string string;   (* regular files, as text *)
  dirs : gset string            (* directories *)
}.

(** What [subprocess.run] hands back. *)
Record CompletedProcess : Type := mkCP {
  returncode : Z;
  stdout : list byte            (* stderr is merged into it *)
}.

(** An external program either cannot be started or runs to its end, leaving
    a status, its output and whatever it did to the files. *)
Inductive ProcOutcome : Type :=
  | NotStarted
  | Exited (cp : CompletedProcess) (fs' : FileSystem).

Record World : Type := mkWorld {
  fs : FileSystem;
  invocations : list (list string);  (* argument lists given to subprocess.run, oldest first *)
  terminal : list string;            (* lines printed by click.echo, oldest first *)
  progress : list string             (* step titles shown by the progress bar, oldest first *)
}.

Definition set_fs (f : FileSystem -> FileSystem) (w : World) : World :=
  mkWorld (f (fs w)) (invocations w) (terminal w) (progress w).
Definition set_files (f : gmap string string -> gmap string string) (w : World) : World :=
  set_fs (fun s => mkFS (f (files s)) (dirs s)) w.

(** ** Computations *)

Inductive Res (A : Type) : Type :=
  | Return (a : A)
  | Raise (e : PyExn).
Arguments Return {A} a.
Arguments Raise {A} e.

Definition M (S A : Type) : Type := S -> Res A * S.

Definition ret {S A} (a : A) : M S A := fun s => (Return a, s).
Definition raise {S A} (e : PyExn) : M S A := fun s => (Raise e, s).
Definition bind {S A B} (m : M S A) (k : A -> M S B) : M S B :=
  fun s =>
    match m s with
    | (Return a, s') => k a s'
    | (Raise e, s') => (Raise e, s')
    end.

Notation "'do' x <- m ; k" := (bind m (fun x => k))
  (at level 10, x name, m at level 100, k at level 200).
Notation "m ;; k" := (bind m (fun _ => k))
  (at level 100, k at level 200, right associativity).

(** [for x in xs: body(x)] *)
Fixpoint for_each {S A} (xs : list A) (body : A -> M S unit) : M S unit :=
  match xs with
  | [] => ret tt
  | x :: xs' => body x ;; for_each xs' body
  end.

(** [try: body finally: cleanup].  The cleanup always runs; when it raises,
    its exception replaces whatever the body had produced. *)
Definition try_finally {S A} (body : M S A) (cleanup : M S unit) : M S A :=
  fun s =>
    let '(r, s1) := body s in
    match cleanup s1 with
    | (Return _, s2) => (r, s2)
    | (Raise e, s2) => (Raise e, s2)
    end.

(** [try: body except ScriptError as se: handler(se)] *)
Definition try_except_ScriptError {S A} (body : M S A)
    (handler : string -> string -> Z -> M S A) : M S A :=
  fun s =>
    match body s with
    | (Raise (ScriptError t d c), s') => handler t d c s'
    | other => other
    end.

(** A result that involves no state. *)
Definition lift_res {S A} (r : Res A) : M S A := fun s => (r, s).

(** The same sequencing for results alone. *)
Definition rbind {A B} (r : Res A) (k : A -> Res B) : Res B :=
  match r with
  | Return a => k a
  | Raise e => Raise e
  end.

Notation "'let?' x := r 'in' k" := (rbind r (fun x => k))
  (at level 10, x name, r at level 100, k at level 200).

(** ** Built-in operations on values *)

(** [d[key]] on a dict with text keys. *)
Definition dict_getitem {V} (d : gmap string V) (key : string) : Res V :=
  match d !! key with
  | Some v => Return v
  | None => Raise (KeyError key)
  end.

(** [l[i]] and [l[i] = x] on a list: both raise out of range. *)
Definition list_getitem (l : list string) (i : nat) : Res string :=
  match l !! i with
  | Some x => Return x
  | None => Raise IndexError
  end.

Definition list_setitem (l : list string) (i : nat) (x : string) : Res (list string) :=
  if decide (i < length l)%nat then Return (<[i:=x]> l) else Raise IndexError.

(** [next(it)] on an iterator over [l]: the first item and the rest. *)
Definition next {A} (l : list A) : Res (A * list A) :=
  match l with
  | [] => Raise StopIteration
  | x :: rest => Return (x, rest)
  end.

(** Truth value of a text, of a text-or-None and of a dict. *)
Definition str_truthy (s : string) : bool :=
  match s with EmptyString => false | String _ _ => true end.

Definition opt_truthy (v : option string) : bool :=
  match v with None => false | Some s => str_truthy s end.

Definition dict_truthy {V} (d : gmap string V) : bool :=
  bool_decide (d ≠ ∅).

(** [bytes.decode()] *)
Definition decode (bs : list byte) : Res string :=
  if utf8_valid bs then Return (String.string_of_list_byte bs) else Raise UnicodeDecodeError.

(** [posixpath.basename] and [posixpath.join] (two arguments). *)
Definition is_slash (c : Ascii.ascii) : bool := Ascii.eqb c (Ascii.ascii_of_nat 47).

Fixpoint has_slash (p : string) : bool :=
  match p with
  | EmptyString => false
  | String c rest => is_slash c || has_slash rest
  end.

Fixpoint basename (p : string) : string :=
  match p with
  | EmptyString => EmptyString
  | String c rest =>
    if has_slash rest then basename rest
    else if is_slash c then rest else p
  end.

Fixpoint ends_with_slash (p : string) : bool :=
  match p with
  | EmptyString => false
  | String c EmptyString => is_slash c
  | String _ rest => ends_with_slash rest
  end.

Definition path_join (a b : string) : string :=
  match b with
  | String c _ =>
    if is_slash c then b
    else if negb (str_truthy a) || ends_with_slash a then a +:+ b
    else a +:+ "/" +:+ b
  | EmptyString =>
    if negb (str_truthy a) || ends_with_slash a then a else a +:+ "/"
  end.

(** [click.style(text, fg='red')] *)
Definition style_red (text : string) : string :=
  esc +:+ "[31m" +:+ text +:+ esc +:+ "[0m".

(** ** Files, processes and the terminal *)

(** [open(filename)] followed by reading: the whole text, or an exception
    when there is no such file. *)
Definition open_read (filename : string) : M World string :=
  fun w =>
    match files (fs w) !! filename with
    | Some text => (Return text, w)
    | None => (Raise (FileNotFoundError filename), w)
    end.

(** [open(filename, "w")]: the file exists and is empty afterwards. *)
Definition open_write (filename : string) : M World unit :=
  fun w => (Return tt, set_files (insert filename EmptyString) w).

(** [f.write(data)] on a file opened for writing under [filename]. *)
Definition file_write (filename data : string) : M World unit :=
  fun w => (Return tt, set_files (alter (fun text => text +:+ data) filename) w).

(** [os.remove(filename)]: raises when there is no such file. *)
Definition os_remove (filename : string) : M World unit :=
  fun w =>
    match files (fs w) !! filename with
    | Some _ => (Return tt, set_files (delete filename) w)
    | None => (Raise (FileNotFoundError filename), w)
    end.

Definition path_isfile (p : string) : M World bool :=
  fun w => (Return (bool_decide (is_Some (files (fs w) !! p))), w).

Definition path_isdir (p : string) : M World bool :=
  fun w => (Return (bool_decide (p ∈ dirs (fs w))), w).

(** The names in a path, read the way the operating system resolves it, as
    [posixpath.normpath] does on the text: the path is cut at its slashes,
    empty pieces and [.] are dropped, and [..] takes back the name before it.
    [kept] holds the names read so far, the last one first.  Links and the
    current directory are outside this model: an absolute path and a
    relative one are never taken for the same place. *)
Fixpoint split_at_slash (p : string) : list string :=
  match p with
  | EmptyString => [EmptyString]
  | String c rest =>
    if is_slash c then EmptyString :: split_at_slash rest
    else match split_at_slash rest with
         | [] => [String c EmptyString]
         | piece :: pieces => String c piece :: pieces
         end
  end.

Fixpoint normal_pieces (absolute : bool) (kept pieces : list string) : list string :=
  match pieces with
  | [] => reverse kept
  | piece :: pieces' =>
    if String.eqb piece EmptyString || String.eqb piece "." then
      normal_pieces absolute kept pieces'
    else if String.eqb piece ".." then
      match kept with
      | top :: below =>
        if String.eqb top ".." then normal_pieces absolute (piece :: kept) pieces'
        else normal_pieces absolute below pieces'
      | [] =>
        if absolute then normal_pieces absolute [] pieces'
        else normal_pieces absolute [piece] pieces'
      end
    else normal_pieces absolute (piece :: kept) pieces'
  end.

Definition is_absolute (p : string) : bool :=
  match p with
  | String c _ => is_slash c
  | EmptyString => false
  end.

Definition path_names (p : string) : list string :=
  normal_pieces (is_absolute p) [] (split_at_slash p).

(** The second list of names goes on from the first and does not step
    back out of it ([..] can only be left at the front of the names of a
    relative path). *)
Fixpoint starts_with (names1 names2 : list string) : bool :=
  match names1, names2 with
  | [], [] => true
  | [], name2 :: _ => negb (String.eqb name2 "..")
  | name1 :: rest1, name2 :: rest2 => String.eqb name1 name2 && starts_with rest1 rest2
  | _ :: _, [] => false
  end.

(** [p] names the directory [d] itself or something below it, however the
    two are spelled: [fab/old.pos] and [fab//old.pos] are both under [fab],
    [fab/] and [./fab]; [fab/../notes] and [fabric/old.pos] are not. *)
Definition under (d p : string) : bool :=
  Bool.eqb (is_absolute d) (is_absolute p) && starts_with (path_names d) (path_names p).



(** [shutil.rmtree(d)]: the directory and all it holds are gone, under every
    spelling of their paths. *)
Definition shutil_rmtree (d : string) : M World unit :=
  fun w =>
    (Return tt,
     set_fs (fun s => mkFS (filter (fun kv => under d kv.1 = false) (files s))
                           (filter (fun p => under d p = false) (dirs s))) w).

(** [os.makedirs(d)]: raises when something of that name exists already. *)
Definition os_makedirs (d : string) : M World unit :=
  fun w =>
    if negb (str_truthy d) then (Raise (FileNotFoundError d), w)
    else if bool_decide (d ∈ dirs (fs w)) || bool_decide (is_Some (files (fs w) !! d))
    then (Raise (FileExistsError d), w)
    else (Return tt, set_fs (fun s => mkFS (files s) ({[d]} ∪ dirs s)) w).

(** [click.echo(message)] *)
Definition click_echo (message : string) : M World unit :=
  fun w => (Return tt, mkWorld (fs w) (invocations w) (terminal w ++ [message]) (progress w)).

(** The progress bar shows the title of the step it hands out. *)
Definition show_item (title : string) : M World unit :=
  fun w => (Return tt, mkWorld (fs w) (invocations w) (terminal w) (progress w ++ [title])).

(** ** The script *)

(** [ScriptExecutionContext]: five texts and the dict of fix-ups.  The dict is
    the one object the steps share and change; a reference may be [None]
    there, since it is taken from a parsed row. *)
Record ScriptExecutionContext : Type := mkEC {
  kicad_path : string;
  output : string;
  pcb : string;
  schema : string;
  project_base : string;
  pos_fixups : gmap (option string) (gmap string (option string))
}.

(** What a step runs against: the context it is handed ([step(ec)]) and the
    world.  In Python the named tuple cannot be assigned to and its dict is
    changed in place; here the context is part of the state and changing the
    dict yields a new context with the other fields copied. *)
Record Run : Type := mkRun {
  ec : ScriptExecutionContext;
  world : World
}.

(** An operation on the world, inside a step. *)
Definition io {A} (m : M World A) : M Run A :=
  fun r => let '(x, w') := m (world r) in (x, mkRun (ec r) w').

(** The step's argument. *)
Definition get_ec : M Run ScriptExecutionContext :=
  fun r => (Return (ec r), r).

(** [ec.pos_fixups[key] = value] *)
Definition pos_fixups_setitem (key : option string) (value : gmap string (option string))
    : M Run unit :=
  fun r =>
    let c := ec r in
    (Return tt,
     mkRun (mkEC (kicad_path c) (output c) (pcb c) (schema c) (project_base c)
                 (<[key:=value]> (pos_fixups c)))
           (world r)).

(** A step is a function that carries its title ([script_step]). *)
Record Step : Type := mkStep {
  step_title : string;
  step_fn : M Run unit
}.

Definition script_step (title : string) (fn : M Run unit) : Step := mkStep title fn.

Section Script.

(** The external programs: what running an argument list does to the files,
    and with which status and output it ends. *)
Variable execute : list string -> FileSystem -> ProcOutcome.

(** [csv.reader] on the text of a file: its rows, each a list of fields. *)
Variable csv_reader : string -> list (list string).

(** [glob.glob]: the paths that match a pattern. *)
Variable glob_glob : string -> FileSystem -> list string.

(** [subprocess.run(args, stdout=PIPE, stderr=STDOUT)] *)
Definition subprocess_run (command_args : list string) : M World CompletedProcess :=
  fun w =>
    let w1 := mkWorld (fs w) (invocations w ++ [command_args]) (terminal w) (progress w) in
    match execute command_args (fs w) with
    | NotStarted => (Raise (OSError (hd EmptyString command_args)), w1)
    | Exited cp fs' => (Return cp, set_fs (fun _ => fs') w1)
    end.

Definition run_command (command_args : list string) : M World unit :=
  do created_process <- subprocess_run command_args;
  if negb (returncode created_process =? 0)%Z then
    do details <- lift_res (decode (stdout created_process));
    raise (ScriptError ("Error executing command " +:+ join " " command_args) details 2)
  else ret tt.

(** [csv.DictReader]: the first row names the fields; blank rows are
    skipped; a later field of the same name wins; a row that is too short
    is filled up with [None].  (Surplus fields of a row that is too long go
    under the key [None], which this script never reads; they are left out.) *)
Definition DictReader_row (fieldnames row : list string) : gmap string (option string) :=
  let d := fold_left (fun d kv => <[kv.1:=Some kv.2]> d) (zip fieldnames row) ∅ in
  fold_left (fun d key => <[key:=None]> d) (drop (length row) fieldnames) d.

Definition DictReader (text : string) : list (gmap string (option string)) :=
  match csv_reader text with
  | [] => []
  | fieldnames :: rows => DictReader_row fieldnames <$> filter (fun row => row ≠ []) rows
  end.

Definition probe_kicad_path : M World string :=
  let KicadProbeList := ["/Applications/KiCad/KiCad.app/Contents/MacOS/kicad-cli"] in
  fun w =>
    (Return (hd "kicad-cli"
                (filter (fun test_path => is_Some (files (fs w) !! test_path)) KicadProbeList)),
     w).

Definition generate_gerbers : M Run unit :=
  do ec <- get_ec;
  io (run_command [kicad_path ec;
        "pcb"; "export"; "gerbers";
        "-l"; "F.Cu,F.Paste,F.Silkscreen,F.Mask,B.Cu,B.Paste,B.Silkscreen,B.Mask,Edge.Cuts";
        "--no-x2";
        "--subtract-soldermask";
        "-o"; output ec;
        pcb ec]).

Definition generate_drill : M Run unit :=
  do ec <- get_ec;
  io (run_command [kicad_path ec;
        "pcb"; "export"; "drill";
        "--map-format"; "gerberx2";
        "-o"; output ec +:+ "/";
        pcb ec]).

Definition archive_pcb : M Run unit :=
  do ec <- get_ec;
  io (fun w =>
        run_command (["zip";
                      "-o"; output ec +:+ "/" +:+ project_base ec +:+ "-gerbers.zip"]
                     ++ glob_glob (output ec +:+ "/*.g*") (fs w)
                     ++ glob_glob (output ec +:+ "/*.drl") (fs w)) w).

Definition generate_bom : M Run unit :=
  do ec <- get_ec;
  io (run_command [kicad_path ec;
        "sch"; "export"; "bom";
        "--fields"; "Value,Reference,Footprint,LCSC";
        "--group-by"; "Value";
        "--labels"; "Comment,Designator,Footprint,LCSC Part Number";
        "--ref-range-delimiter"; EmptyString;
        "-o"; output ec +:+ "/" +:+ project_base ec +:+ "-bom.csv";
        schema ec]).

Definition load_pos_fixups : M Run unit :=
  do ec <- get_ec;
  let pos_fixups_filename := output ec +:+ "/pos-fixups.csv" in
  try_finally
    (io (run_command [kicad_path ec;
           "sch"; "export"; "bom";
           "--fields"; "Reference,PosRotAdjust";
           "-o"; pos_fixups_filename; schema ec]) ;;
     do pos_fixup_mappings_file <- io (open_read pos_fixups_filename);
     for_each (DictReader pos_fixup_mappings_file) (fun fixup =>
       do reference <- lift_res (dict_getitem fixup "Reference");
       pos_fixups_setitem reference fixup))
    (io (os_remove pos_fixups_filename)).

(** The body of the loop of [generate_pos], up to the line it writes:
    look the reference up, override the rotation, quote three fields. *)
Definition fixup_pos_line (fixups : gmap (option string) (gmap string (option string)))
    (pos_line : list string) : Res (list string) :=
  let? reference := list_getitem pos_line 0 in
  let? fixup := match fixups !! Some reference with
                | Some fixup => Return fixup
                | None => Raise (KeyError reference)
                end in
  let? pos_line :=
    (if dict_truthy fixup then
       let? adjust := dict_getitem fixup "PosRotAdjust" in
       let? rotation := (if opt_truthy adjust then Return (default EmptyString adjust)
                         else list_getitem pos_line 5) in
       list_setitem pos_line 5 rotation
     else Return pos_line) in
  let? field0 := list_getitem pos_line 0 in
  let? pos_line := list_setitem pos_line 0 (dq +:+ field0 +:+ dq) in
  let? field1 := list_getitem pos_line 1 in
  let? pos_line := list_setitem pos_line 1 (dq +:+ field1 +:+ dq) in
  let? field2 := list_getitem pos_line 2 in
  let? pos_line := list_setitem pos_line 2 (dq +:+ field2 +:+ dq) in
  Return pos_line.

Definition pos_header : string :=
  join "," ["Designator"; "Val"; "Package"; "Mid X"; "Mid Y"; "Rotation"; "Layer"].

Definition generate_pos : M Run unit :=
  do ec <- get_ec;
  let pre_fixup_pos_filename := output ec +:+ "/pre-fixup-pos.pos" in
  try_finally
    (io (run_command [kicad_path ec;
           "pcb"; "export"; "pos";
           "--format"; "csv";
           "--units"; "mm";
           "--side"; "front";
           "-o"; pre_fixup_pos_filename;
           pcb ec]) ;;
     do pre_fixup_pos_file <- io (open_read pre_fixup_pos_filename);
     do header_and_rest <- lift_res (next (csv_reader pre_fixup_pos_file));
     let pre_fixup_pos_reader := header_and_rest.2 in
     let pos_file := output ec +:+ "/" +:+ project_base ec +:+ ".pos" in
     io (open_write pos_file) ;;
     io (file_write pos_file pos_header) ;;
     io (file_write pos_file nl) ;;
     for_each pre_fixup_pos_reader (fun pos_line =>
       do ec <- get_ec;
       do pos_line <- lift_res (fixup_pos_line (pos_fixups ec) pos_line);
       io (file_write pos_file (join "," pos_line)) ;;
       io (file_write pos_file nl)))
    (io (os_remove pre_fixup_pos_filename)).

(** The list handed to the progress bar. *)
Definition steps : list Step :=
  [ script_step "Generate gerbers" generate_gerbers;
    script_step "Generate drill" generate_drill;
    script_step "Archive PCB fabrication outputs" archive_pcb;
    script_step "Generate BOM" generate_bom;
    script_step "Load pick-and-place fixup mappings" load_pos_fixups;
    script_step "Generate and fixup pick-and-place" generate_pos ].

(** [for step in steps: step(ec)], the bar showing each title in turn. *)
Definition run_steps (l : list Step) : M Run unit :=
  for_each l (fun step => io (show_item (step_title step)) ;; step_fn step).

(** The steps run against a context, seen from the world. *)
Definition with_context {A} (c : ScriptExecutionContext) (m : M Run A) : M World A :=
  fun w => let '(x, r) := m (mkRun c w) in (x, world r).

(** The command, in three parts.  First what comes before the steps, up to
    the context they are given. *)
Definition generate_fab_setup (project : string) (schema pcb : option string)
    (output : string) (force : bool) (kicad_path : option string)
    : M World ScriptExecutionContext :=
  do kicad_path <- (if opt_truthy kicad_path then ret (default EmptyString kicad_path)
                    else probe_kicad_path);
  let schema := if opt_truthy schema then default EmptyString schema
                else basename project +:+ ".kicad_sch" in
  let pcb := if opt_truthy pcb then default EmptyString pcb
             else basename project +:+ ".kicad_pcb" in
  let schema := path_join project schema in
  let pcb := path_join project pcb in
  do is_dir <- path_isdir output;
  (if is_dir then
     if force then shutil_rmtree output
     else raise (ScriptError
            (dq +:+ output +:+ dq +:+ " already exists.")
            "Use --fore to remove and re-create, or --output to specify a different path"
            1)
   else ret tt) ;;
  let project_base := basename project in
  os_makedirs output ;;
  click_echo ("Using " +:+ kicad_path +:+ " to generate fabraction outputs for PCB "
              +:+ pcb +:+ " and schema " +:+ schema) ;;
  ret (mkEC kicad_path output pcb schema project_base ∅).

(** Then the whole [try] block: the steps run and the last message is
    printed.  The function ends without a [return], so its value is [None]. *)
Definition generate_fab_body (project : string) (schema pcb : option string)
    (output : string) (force : bool) (kicad_path : option string)
    : M World (option Z) :=
  do ec <- generate_fab_setup project schema pcb output force kicad_path;
  with_context ec (run_steps steps) ;;
  click_echo "Done." ;;
  ret None.

(** Last the handler around it, which returns the error code. *)
Definition generate_fab (project : string) (schema pcb : option string) (output : string)
    (force : bool) (kicad_path : option string) : M World (option Z) :=
  try_except_ScriptError
    (generate_fab_body project schema pcb output force kicad_path)
    (fun title details error_code =>
       click_echo (style_red title) ;;
       click_echo details ;;
       ret (Some error_code)).

(** The script run as a program (lines 198-199), on a command line that
    click accepts.  [generate_fab()] calls the click command, which runs the
    function above in its standalone mode: the value the function returns
    is not looked at, and the process ends with status 0 whenever the
    function returns.  An exception that leaves the function ends the
    process with status 1, after a traceback on the error stream, which is
    not part of the model. *)
Definition main (project : string) (schema pcb : option string) (output : string)
    (force : bool) (kicad_path : option string) : World -> Z * World :=
  fun w =>
    match generate_fab project schema pcb output force kicad_path w with
    | (Return _, w') => (0, w')
    | (Raise _, w') => (1, w')
    end.

End Script.

(** ** A sample environment

    Concrete stand-ins for the external programs and for the CSV reader, to
    run the script on. *)
Module Sample.

(** Cut a text at every occurrence of a character. *)
Fixpoint split_on (c : Ascii.ascii) (s : string) : list string :=
  match s with
  | EmptyString => [EmptyString]
  | String a rest =>
    if Ascii.eqb a c then EmptyString :: split_on c rest
    else match split_on c rest with
         | [] => [String a EmptyString]
         | piece :: pieces => String a piece :: pieces
         end
  end.

(** The lines of a text; a final line feed ends the last line. *)
Definition lines (text : string) : list string :=
  match reverse (split_on (Ascii.ascii_of_nat 10) text) with
  | EmptyString :: earlier => reverse earlier
  | pieces => reverse pieces
  end.

(** [csv.reader] on a text without quote characters and carriage returns:
    one row per line, fields cut at the commas, a blank line an empty row. *)
Definition csv_reader (text : string) : list (list string) :=
  (fun line => match line with
               | EmptyString => []
               | _ => split_on (Ascii.ascii_of_nat 44) line
               end) <$> lines text.

(** The argument that follows [flag]. *)
Fixpoint arg_after (flag : string) (args : list string) : option string :=
  match args with
  | a :: rest =>
    if String.eqb a flag then head rest else arg_after flag rest
  | [] => None
  end.

(** A tool that, unless the arguments are marked as failing, writes
    [fixups_csv] when asked for the fix-up fields, [pos_csv] when asked for
    positions, and ends with status 0 and no output; on failing arguments
    it writes nothing and ends with status [rc] and output [out]. *)
Definition execute (fixups_csv pos_csv : string) (failing : list string -> bool)
    (rc : Z) (out : list byte) (args : list string) (s : FileSystem) : ProcOutcome :=
  if failing args then Exited (mkCP rc out) s
  else
    match arg_after "-o" args with
    | Some target =>
      if bool_decide ("Reference,PosRotAdjust" ∈ args)
      then Exited (mkCP 0 []) (mkFS (<[target:=fixups_csv]> (files s)) (dirs s))
      else if bool_decide ("pos" ∈ args)
      then Exited (mkCP 0 []) (mkFS (<[target:=pos_csv]> (files s)) (dirs s))
      else Exited (mkCP 0 []) s
    | None => Exited (mkCP 0 []) s
    end.

(** No path matches. *)
Definition glob_glob (pattern : string) (s : FileSystem) : list string := [].

Definition empty_world : World := mkWorld (mkFS ∅ ∅) [] [] [].

Definition never (args : list string) : bool := false.
Definition always (args : list string) : bool := true.

(** The arguments name the given export. *)
Definition exports (what : string) (args : list string) : bool :=
  bool_decide (what ∈ args).

(** A fix-up export with one record, and a placement export with two rows. *)
Definition fixups_csv : string :=
  "Reference,PosRotAdjust" +:+ nl +:+ "R1,90" +:+ nl.

Definition pos_csv : string :=
  "Ref,Val,Package,PosX,PosY,Rot,Side" +:+ nl
  +:+ "R1,10k,0805,12.5,8.2,0,top" +:+ nl
  +:+ "C2,100nF,0603,5.0,5.0,180,top" +:+ nl.

(** A placement export with the R1 row alone, and one without any line. *)
Definition pos_csv_R1 : string :=
  "Ref,Val,Package,PosX,PosY,Rot,Side" +:+ nl
  +:+ "R1,10k,0805,12.5,8.2,0,top" +:+ nl.

(** The records [{"R1": PosRotAdjust="90"}] and [{"C2": PosRotAdjust=""}]. *)
Definition fixup_R1 : gmap string (option string) :=
  DictReader_row ["Reference"; "PosRotAdjust"] ["R1"; "90"].
Definition fixup_C2 : gmap string (option string) :=
  DictReader_row ["Reference"; "PosRotAdjust"] ["C2"; EmptyString].

Definition row_R1 : list string := ["R1"; "10k"; "0805"; "12.5"; "8.2"; "0"; "top"].
Definition row_C2 : list string := ["C2"; "100nF"; "0603"; "5.0"; "5.0"; "180"; "top"].

(** A context with no fix-ups yet, and one that holds the record of R1. *)
Definition context : ScriptExecutionContext :=
  mkEC "kicad-cli" "fab" "board/board.kicad_pcb" "board/board.kicad_sch" "board" ∅.

Definition context_R1 : ScriptExecutionContext :=
  mkEC "kicad-cli" "fab" "board/board.kicad_pcb" "board/board.kicad_sch" "board"
       {[ Some "R1" := fixup_R1 ]}.

(** The context of a project kept in a folder named [pre-fixup-pos], with
    the record of R1. *)
Definition context_pre_fixup_pos : ScriptExecutionContext :=
  mkEC "kicad-cli" "fab" "pre-fixup-pos/pre-fixup-pos.kicad_pcb"
       "pre-fixup-pos/pre-fixup-pos.kicad_sch" "pre-fixup-pos"
       {[ Some "R1" := fixup_R1 ]}.

Definition boom : list byte := String.list_byte_of_string "boom".

(** Tools: one that always succeeds on exports that match (every row has
    its fix-up), one whose placement export has a row without fix-up, and
    one that fails on the export named, with status 1 and output [out]. *)
Definition tool_ok : list string -> FileSystem -> ProcOutcome :=
  execute fixups_csv pos_csv_R1 never 0 [].
Definition tool_missing : list string -> FileSystem -> ProcOutcome :=
  execute fixups_csv pos_csv never 0 [].
Definition tool_failing (what : string) (out : list byte)
    : list string -> FileSystem -> ProcOutcome :=
  execute fixups_csv pos_csv_R1 (exports what) 1 out.
(** A tool whose placement export is an empty file. *)
Definition tool_empty_pos : list string -> FileSystem -> ProcOutcome :=
  execute fixups_csv EmptyString never 0 [].

Definition start : Run := mkRun context empty_world.

(** A tool that writes [text] to the file named after [-o] and then ends
    with status [rc] and output [out]. *)
Definition write_then_exit (text : string) (rc : Z) (out : list byte)
    (args : list string) (s : FileSystem) : ProcOutcome :=
  match arg_after "-o" args with
  | Some target => Exited (mkCP rc out) (mkFS (<[target:=text]> (files s)) (dirs s))
  | None => Exited (mkCP rc out) s
  end.

(** A fix-up export whose header has no [Reference] column, and one in which
    R1 comes twice. *)
Definition fixups_csv_no_reference : string :=
  "Designator,PosRotAdjust" +:+ nl +:+ "R1,90" +:+ nl.
Definition fixups_csv_twice : string :=
  "Reference,PosRotAdjust" +:+ nl +:+ "R1,90" +:+ nl +:+ "R1,270" +:+ nl.

(** A placement export whose second row is short. *)
Definition pos_csv_short : string :=
  "Ref,Val,Package,PosX,PosY,Rot,Side" +:+ nl
  +:+ "R1,10k,0805,12.5,8.2,0,top" +:+ nl
  +:+ "R1,10k" +:+ nl.

End Sample.

(** ** Notions used in the statements *)

(** The world once [command_args] has been handed to [subprocess.run] and
    the program has left the files as [fs']. *)
Definition after_process (command_args : list string) (fs' : FileSystem) (w : World) : World :=
  mkWorld fs' (invocations w ++ [command_args]) (terminal w) (progress w).

(** [m] moves every state to one related to it by [R], however it ends. *)
Definition preserves {S : Type} (R : S -> S -> Prop) {A} (m : M S A) : Prop :=
  forall s, R s (m s).2.

(** Every exception [m] can raise satisfies [P]. *)
Definition raises_only {S A : Type} (P : PyExn -> Prop) (m : M S A) : Prop :=
  forall s e s', m s = (Raise e, s') -> P e.

(** An exception that, if it is a [ScriptError] at all, is the one
    [run_command] raises: code 2, the title naming the command. *)
Definition command_failure_if_ScriptError (e : PyExn) : Prop :=
  match e with
  | ScriptError title _ error_code =>
    error_code = 2 /\
    exists command_args, title = "Error executing command " +:+ join " " command_args
  | _ => True
  end.

(** Two runs agree on the five configuration fields of the context. *)
Definition same_config (r r' : Run) : Prop :=
  kicad_path (ec r') = kicad_path (ec r) /\
  output (ec r') = output (ec r) /\
  pcb (ec r') = pcb (ec r) /\
  schema (ec r') = schema (ec r) /\
  project_base (ec r') = project_base (ec r).

(** Two runs have the same context altogether, fix-ups included. *)
Definition same_context (r r' : Run) : Prop := ec r' = ec r.

(** The progress bar shows the same titles in both. *)
Definition same_progress (r r' : Run) : Prop :=
  progress (world r') = progress (world r).

(** The run once the progress bar has shown [title]. *)
Definition shown (title : string) (r : Run) : Run :=
  mkRun (ec r)
        (mkWorld (fs (world r)) (invocations (world r)) (terminal (world r))
                 (progress (world r) ++ [title])).

(** The error raised when the output directory is in the way. *)
Definition output_exists_error (output : string) : PyExn :=
  ScriptError (dq +:+ output +:+ dq +:+ " already exists.")
              "Use --fore to remove and re-create, or --output to specify a different path"
              1.

(** The text made of the given lines, each ended by a line feed. *)
Definition unlines (ls : list string) : string :=
  foldr (fun l text => l +:+ nl +:+ text) EmptyString ls.

(** The two file names the steps build. *)
Definition pre_fixup_pos_filename (c : ScriptExecutionContext) : string :=
  output c +:+ "/pre-fixup-pos.pos".
Definition pos_filename (c : ScriptExecutionContext) : string :=
  output c +:+ "/" +:+ project_base c +:+ ".pos".
Definition pos_fixups_filename (c : ScriptExecutionContext) : string :=
  output c +:+ "/pos-fixups.csv".

(** Every record of the dict sits under the key that its own [Reference]
    field holds. *)
Definition keyed_by_reference
    (d : gmap (option string) (gmap string (option string))) : Prop :=
  forall key record, d !! key = Some record -> record !! "Reference" = Some key.

(** The last of the records whose [Reference] field is [key]. *)
Definition last_record (key : option string)
    (records : list (gmap string (option string))) : option (gmap string (option string)) :=
  last (filter (fun record => record !! "Reference" = Some key) records).

(** The line printed before the steps run. *)
Definition using_line (c : ScriptExecutionContext) : string :=
  "Using " +:+ kicad_path c +:+ " to generate fabraction outputs for PCB "
  +:+ pcb c +:+ " and schema " +:+ schema c.

(** A relation between contexts, or between worlds, read on runs. *)
Definition on_context (Q : ScriptExecutionContext -> ScriptExecutionContext -> Prop)
    (r r' : Run) : Prop := Q (ec r) (ec r').
Definition on_world (Q : World -> World -> Prop) (r r' : Run) : Prop :=
  Q (world r) (world r').

(** The later context has a record for every reference the earlier one has. *)
Definition fixups_kept (c c' : ScriptExecutionContext) : Prop :=
  dom (pos_fixups c) ⊆ dom (pos_fixups c').

(** If the records of the earlier context sit under their references, so do
    those of the later one. *)
Definition keeps_keyed (c c' : ScriptExecutionContext) : Prop :=
  keyed_by_reference (pos_fixups c) -> keyed_by_reference (pos_fixups c').

Definition same_terminal (w w' : World) : Prop := terminal w' = terminal w.
Definition same_invocations (w w' : World) : Prop := invocations w' = invocations w.

(** The argument list of the first step. *)
Definition gerbers_export_args (c : ScriptExecutionContext) : list string :=
  [kicad_path c; "pcb"; "export"; "gerbers"; "-l";
   "F.Cu,F.Paste,F.Silkscreen,F.Mask,B.Cu,B.Paste,B.Silkscreen,B.Mask,Edge.Cuts";
   "--no-x2"; "--subtract-soldermask"; "-o"; output c; pcb c].

(** The argument lists of the two exports that go through a temporary file. *)
Definition fixups_export_args (c : ScriptExecutionContext) : list string :=
  [kicad_path c; "sch"; "export"; "bom"; "--fields"; "Reference,PosRotAdjust";
   "-o"; pos_fixups_filename c; schema c].
Definition pos_export_args (c : ScriptExecutionContext) : list string :=
  [kicad_path c; "pcb"; "export"; "pos"; "--format"; "csv"; "--units"; "mm";
   "--side"; "front"; "-o"; pre_fixup_pos_filename c; pcb c].

(** What [run_command] makes of a process that has ended. *)
Definition command_result (command_args : list string) (cp : CompletedProcess) : Res unit :=
  if (returncode cp =? 0)%Z then Return tt
  else match decode (stdout cp) with
       | Return details =>
         Raise (ScriptError ("Error executing command " +:+ join " " command_args) details 2)
       | Raise e => Raise e
       end.

(** The context with another dict of fix-ups. *)
Definition with_pos_fixups (c : ScriptExecutionContext)
    (d : gmap (option string) (gmap string (option string))) : ScriptExecutionContext :=
  mkEC (kicad_path c) (output c) (pcb c) (schema c) (project_base c) d.

(** The context a run starts with: the tool given, or else the one of the
    application bundle if that file is there, or else the bare command name;
    the schema and board files given, or else those named after the project
    folder, inside that folder; no fix-ups. *)
Definition chosen_kicad_path (kicad_path : option string) (w : World) : string :=
  match kicad_path with
  | Some (String a s) => String a s
  | _ =>
    if bool_decide (is_Some (files (fs w)
                       !! "/Applications/KiCad/KiCad.app/Contents/MacOS/kicad-cli"))
    then "/Applications/KiCad/KiCad.app/Contents/MacOS/kicad-cli"
    else "kicad-cli"
  end.

Definition chosen_file (project : string) (given : option string) (suffix : string) : string :=
  path_join project
    match given with
    | Some (String a s) => String a s
    | _ => basename project +:+ suffix
    end.

Definition fresh_context (project : string) (schema pcb : option string) (output : string)
    (kicad_path : option string) (w : World) : ScriptExecutionContext :=
  mkEC (chosen_kicad_path kicad_path w) output
       (chosen_file project pcb ".kicad_pcb") (chosen_file project schema ".kicad_sch")
       (basename project) ∅.

(** A step function makes exactly one call of [subprocess.run], whether it
    returns or raises, and the program asked for, the first of the
    arguments, is the one that [program] reads from the context. *)
Definition starts_one_process (program : ScriptExecutionContext -> string)
    (step : M Run unit) : Prop :=
  forall r, exists command_args,
    invocations (world (step r).2) = (invocations (world r) ++ [command_args])%list /\
    head command_args = Some (program (ec r)).

(** * Properties *)

(** ** The command runner *)

Section RunCommand.

Variable execute : list string -> FileSystem -> ProcOutcome.

Lemma run_command_exited command_args w cp fs' :
  execute command_args (fs w) = Exited cp fs' ->
  run_command execute command_args w =
    (if (returncode cp =? 0)%Z then Return tt
     else match decode (stdout cp) with
          | Return details =>
            Raise (ScriptError ("Error executing command " +:+ join " " command_args) details 2)
          | Raise e => Raise e
          end,
     after_process command_args fs' w).
Proof.
  intros Hexec.
  unfold run_command, bind, subprocess_run, lift_res, raise, ret.
  rewrite Hexec. cbn.
  destruct (returncode cp =? 0)%Z; cbn; [reflexivity|].
  destruct (decode (stdout cp)); reflexivity.
Qed.

Lemma run_command_invocations command_args w :
  invocations (run_command execute command_args w).2 = (invocations w ++ [command_args])%list.
Proof.
  unfold run_command, bind, subprocess_run, lift_res, raise, ret.
  destruct (execute command_args (fs w)) as [|cp fs']; cbn; [reflexivity|].
  destruct (returncode cp =? 0)%Z; cbn; [reflexivity|].
  destruct (decode (stdout cp)); reflexivity.
Qed.

(** C3 (as amended): for every argument list [run_command] hands the list to
    [subprocess.run] exactly once.  If the process ends with status zero the
    call returns with no value.  If it ends with a non-zero status and its
    captured output is well-formed UTF-8, the call raises [ScriptError] with
    title "Error executing command " followed by the space-joined arguments,
    the decoded output as details and error code 2.  If the output is not
    well-formed UTF-8, decoding raises [UnicodeDecodeError] instead. *)
Theorem run_command_spec (command_args : list string) (w : World) :
  invocations (run_command execute command_args w).2 = (invocations w ++ [command_args])%list /\
  forall cp fs',
    execute command_args (fs w) = Exited cp fs' ->
    (returncode cp = 0 ->
       run_command execute command_args w = (Return tt, after_process command_args fs' w)) /\
    (returncode cp <> 0 -> utf8_valid (stdout cp) = true ->
       run_command execute command_args w =
         (Raise (ScriptError ("Error executing command " +:+ join " " command_args)
                             (String.string_of_list_byte (stdout cp)) 2),
          after_process command_args fs' w)) /\
    (returncode cp <> 0 -> utf8_valid (stdout cp) = false ->
       run_command execute command_args w =
         (Raise UnicodeDecodeError, after_process command_args fs' w)).
Proof.
  split; [apply run_command_invocations|].
  intros cp fs' Hexec.
  rewrite (run_command_exited _ _ _ _ Hexec).
  repeat split.
  - intros ->. reflexivity.
  - intros Hrc Hutf. apply Z.eqb_neq in Hrc. rewrite Hrc.
    unfold decode. rewrite Hutf. reflexivity.
  - intros Hrc Hutf. apply Z.eqb_neq in Hrc. rewrite Hrc.
    unfold decode. rewrite Hutf. reflexivity.
Qed.

End RunCommand.

(** A command that ends with status 3 after writing "boom". *)
Lemma run_command_spec_witness :
  run_command
    (Sample.execute EmptyString EmptyString Sample.always 3 (String.list_byte_of_string "boom"))
    ["false"] Sample.empty_world
  = (Raise (ScriptError "Error executing command false" "boom" 2),
     mkWorld (mkFS ∅ ∅) [["false"]] [] []).
Proof.
  apply (proj1 (proj2 (proj2 (run_command_spec _ ["false"] Sample.empty_world)
                        (mkCP 3 (String.list_byte_of_string "boom")) (mkFS ∅ ∅)
                        eq_refl))).
  - discriminate.
  - reflexivity.
Defined.

(** C3 (as stated) fails: a command that ends with status 3 after writing the
    single byte 0xFF does not make [run_command] raise [ScriptError]. *)
Lemma run_command_undecodable_output :
  Sample.execute EmptyString EmptyString Sample.always 3 [xff] ["false"] (mkFS ∅ ∅)
    = Exited (mkCP 3 [xff]) (mkFS ∅ ∅) /\
  (run_command (Sample.execute EmptyString EmptyString Sample.always 3 [xff])
     ["false"] Sample.empty_world).1 = Raise UnicodeDecodeError /\
  ~ exists title details error_code,
      (run_command (Sample.execute EmptyString EmptyString Sample.always 3 [xff])
         ["false"] Sample.empty_world).1 = Raise (ScriptError title details error_code).
Proof.
  split; [reflexivity|]. split; [reflexivity|].
  intros (t & d & c & H). discriminate H.
Qed.

(** ** One row of the placement export *)

Section PosLine.

Implicit Types fixups : gmap (option string) (gmap string (option string)).
Implicit Types pos_line out : list string.

Lemma dict_truthy_lookup {V} (d : gmap string V) key v :
  d !! key = Some v -> dict_truthy d = true.
Proof.
  intros H. unfold dict_truthy. apply bool_decide_eq_true.
  intros ->. rewrite lookup_empty in H. discriminate.
Qed.

(** A reference without an entry: the subscript raises. *)
Lemma fixup_pos_line_missing fixups pos_line reference :
  pos_line !! 0%nat = Some reference ->
  fixups !! Some reference = None ->
  fixup_pos_line fixups pos_line = Raise (KeyError reference).
Proof.
  intros H0 Hnone. unfold fixup_pos_line, list_getitem.
  rewrite H0. cbn. rewrite Hnone. reflexivity.
Qed.

(** Whatever row comes out has its first three fields quoted; past them
    only the rotation, the sixth field, may differ from the row read. *)
Lemma fixup_pos_line_Return fixups pos_line out :
  fixup_pos_line fixups pos_line = Return out ->
  exists a b c rest rest',
    pos_line = a :: b :: c :: rest /\
    out = (dq +:+ a +:+ dq) :: (dq +:+ b +:+ dq) :: (dq +:+ c +:+ dq) :: rest' /\
    length rest' = length rest /\
    forall i, i <> 2%nat -> rest' !! i = rest !! i.
Proof.
  unfold fixup_pos_line.
  destruct pos_line as [|a pos_line]; [discriminate|].
  cbn [list_getitem lookup list_lookup rbind].
  destruct (fixups !! Some a) as [fixup|]; [|discriminate].
  cbn [rbind].
  destruct (dict_truthy fixup).
  - destruct (dict_getitem fixup "PosRotAdjust") as [adjust|]; [|discriminate].
    cbn [rbind].
    destruct pos_line as [|b [|c [|d [|e [|f rest]]]]];
      try (destruct (opt_truthy adjust); discriminate).
    set (rot := if opt_truthy adjust then Return (default EmptyString adjust)
                else list_getitem (a :: b :: c :: d :: e :: f :: rest) 5).
    assert (exists r, rot = Return r) as [r ->].
    { subst rot. destruct (opt_truthy adjust); eauto. }
    cbn. intros [= <-].
    exists a, b, c, (d :: e :: f :: rest), (d :: e :: r :: rest).
    repeat split. intros [|[|[|i]]] Hi; try reflexivity. congruence.
  - cbn [rbind].
    destruct pos_line as [|b [|c rest]]; try discriminate.
    cbn. intros [= <-].
    exists a, b, c, rest, rest. repeat split.
Qed.


End PosLine.

(** ** What a computation leaves alone *)

Section Frame.

Context {S : Type} (R : S -> S -> Prop) `{!PreOrder R}.

Local Abbreviation preserves := (preserves R).

Lemma preserves_ret {A} (a : A) : preserves (ret a).
Proof. intros s. reflexivity. Qed.

Lemma preserves_raise {A} e : preserves (@raise S A e).
Proof. intros s. reflexivity. Qed.

Lemma preserves_lift_res {A} (r : Res A) : preserves (lift_res r).
Proof. intros s. reflexivity. Qed.

Lemma preserves_bind {A B} (m : M S A) (k : A -> M S B) :
  preserves m -> (forall a, preserves (k a)) -> preserves (bind m k).
Proof.
  intros Hm Hk s. unfold bind. specialize (Hm s).
  destruct (m s) as [[a|e] s1]; cbn in *; [|exact Hm].
  etrans; [exact Hm|apply Hk].
Qed.

Lemma preserves_for_each {A} (xs : list A) (body : A -> M S unit) :
  (forall x, preserves (body x)) -> preserves (for_each xs body).
Proof.
  intros Hbody. induction xs as [|x xs IH]; cbn.
  - apply preserves_ret.
  - apply preserves_bind; [apply Hbody|intros _; exact IH].
Qed.

Lemma preserves_try_finally {A} (body : M S A) (cleanup : M S unit) :
  preserves body -> preserves cleanup -> preserves (try_finally body cleanup).
Proof.
  intros Hb Hc s. unfold try_finally. specialize (Hb s).
  destruct (body s) as [r s1]. specialize (Hc s1).
  destruct (cleanup s1) as [[[]|e] s2]; cbn in *; etrans; eauto.
Qed.

End Frame.

Global Instance same_config_preorder : PreOrder same_config.
Proof.
  split.
  - intros r. repeat split.
  - intros r1 r2 r3 (?&?&?&?&?) (?&?&?&?&?). repeat split; congruence.
Qed.

Global Instance same_context_preorder : PreOrder same_context.
Proof. split; unfold same_context; [intros r|intros r1 r2 r3]; congruence. Qed.

Global Instance same_progress_preorder : PreOrder same_progress.
Proof. split; unfold same_progress; [intros r|intros r1 r2 r3]; congruence. Qed.

Lemma same_context_config r r' : same_context r r' -> same_config r r'.
Proof. unfold same_context. intros H. repeat split; rewrite H; reflexivity. Qed.

Section StepFrames.

Variable execute : list string -> FileSystem -> ProcOutcome.
Variable csv_reader : string -> list (list string).
Variable glob_glob : string -> FileSystem -> list string.

Lemma io_same_context {A} (m : M World A) : preserves same_context (io m).
Proof. intros r. unfold io. destruct (m (world r)). reflexivity. Qed.

Lemma get_ec_preserves (R : Run -> Run -> Prop) `{!PreOrder R} : preserves R get_ec.
Proof. intros r. reflexivity. Qed.

Lemma io_same_progress {A} (m : M World A) :
  (forall w, progress (m w).2 = progress w) -> preserves same_progress (io m).
Proof.
  intros H r. unfold io, same_progress. specialize (H (world r)).
  destruct (m (world r)). exact H.
Qed.

Lemma run_command_progress command_args w :
  progress (run_command execute command_args w).2 = progress w.
Proof.
  unfold run_command, bind, subprocess_run, lift_res, raise, ret.
  destruct (execute command_args (fs w)) as [|cp fs']; cbn; [reflexivity|].
  destruct (returncode cp =? 0)%Z; cbn; [reflexivity|].
  destruct (decode (stdout cp)); reflexivity.
Qed.

Lemma open_read_progress filename w : progress (open_read filename w).2 = progress w.
Proof. unfold open_read. destruct (files (fs w) !! filename); reflexivity. Qed.

Lemma os_remove_progress filename w : progress (os_remove filename w).2 = progress w.
Proof. unfold os_remove. destruct (files (fs w) !! filename); reflexivity. Qed.

Lemma pos_fixups_setitem_same_config key value :
  preserves same_config (pos_fixups_setitem key value).
Proof. intros r. repeat split. Qed.

Lemma pos_fixups_setitem_same_progress key value :
  preserves same_progress (pos_fixups_setitem key value).
Proof. intros r. reflexivity. Qed.

(** Take a computation apart along its structure. *)
Ltac frame_steps :=
  repeat first
    [ solve [apply preserves_ret; apply _]
    | solve [apply preserves_raise; apply _]
    | solve [apply preserves_lift_res; apply _]
    | solve [apply get_ec_preserves; apply _]
    | apply preserves_try_finally; [apply _| |]
    | apply preserves_for_each; [apply _|intros ?]
    | apply preserves_bind; [apply _| |intros ?] ].

Ltac frame_context := frame_steps; try apply io_same_context.

Ltac frame_progress :=
  frame_steps;
  try apply pos_fixups_setitem_same_progress;
  try (apply io_same_progress; intros ?;
       first [ apply run_command_progress
             | apply open_read_progress
             | apply os_remove_progress
             | reflexivity ]).

Lemma generate_gerbers_same_context : preserves same_context (generate_gerbers execute).
Proof. unfold generate_gerbers. frame_context. Qed.

Lemma generate_drill_same_context : preserves same_context (generate_drill execute).
Proof. unfold generate_drill. frame_context. Qed.

Lemma archive_pcb_same_context : preserves same_context (archive_pcb execute glob_glob).
Proof. unfold archive_pcb. frame_context. Qed.

Lemma generate_bom_same_context : preserves same_context (generate_bom execute).
Proof. unfold generate_bom. frame_context. Qed.

Lemma generate_pos_same_context :
  preserves same_context (generate_pos execute csv_reader).
Proof. unfold generate_pos. frame_context. Qed.

(** The loader changes the context, but only its dict of fix-ups. *)
Lemma load_pos_fixups_same_config :
  preserves same_config (load_pos_fixups execute csv_reader).
Proof.
  unfold load_pos_fixups. frame_steps;
    first [ apply pos_fixups_setitem_same_config
          | intros r; apply same_context_config, io_same_context ].
Qed.

(** No step touches what the progress bar shows. *)
Lemma steps_same_progress :
  Forall (fun s => preserves same_progress (step_fn s))
         (steps execute csv_reader glob_glob).
Proof.
  unfold steps, script_step.
  repeat apply List.Forall_cons; try apply List.Forall_nil; cbn [step_fn].
  - unfold generate_gerbers. frame_progress.
  - unfold generate_drill. frame_progress.
  - unfold archive_pcb. frame_progress.
  - unfold generate_bom. frame_progress.
  - unfold load_pos_fixups. frame_progress.
  - unfold generate_pos. frame_progress.
Qed.

(** C9: whichever of the six steps runs, from whatever state and however it
    ends, the context afterwards has the same tool path, output directory,
    board file, schema file and project base name as before; and unless
    the step is the loader of the fix-ups, the context is the same
    altogether, so the dict of fix-ups is the only part any step changes. *)
Theorem steps_keep_configuration :
  Forall (fun s =>
            forall r,
              same_config r (step_fn s r).2 /\
              (step_title s <> "Load pick-and-place fixup mappings" ->
               ec (step_fn s r).2 = ec r))
         (steps execute csv_reader glob_glob).
Proof.
  unfold steps, script_step.
  repeat apply List.Forall_cons; try apply List.Forall_nil; cbn [step_fn step_title]; intros r.
  - split; [apply same_context_config|intros _]; apply generate_gerbers_same_context.
  - split; [apply same_context_config|intros _]; apply generate_drill_same_context.
  - split; [apply same_context_config|intros _]; apply archive_pcb_same_context.
  - split; [apply same_context_config|intros _]; apply generate_bom_same_context.
  - split; [apply load_pos_fixups_same_config|intros H; contradiction H; reflexivity].
  - split; [apply same_context_config|intros _]; apply generate_pos_same_context.
Qed.

End StepFrames.

(** ** The orchestrator *)

Section Orchestrator.

Variable execute : list string -> FileSystem -> ProcOutcome.
Variable csv_reader : string -> list (list string).
Variable glob_glob : string -> FileSystem -> list string.

Lemma run_steps_cons s l r :
  run_steps (s :: l) r =
    match step_fn s (shown (step_title s) r) with
    | (Return _, r1) => run_steps l r1
    | (Raise e, r1) => (Raise e, r1)
    end.
Proof. reflexivity. Qed.

Lemma run_steps_app l1 l2 r :
  run_steps (l1 ++ l2) r =
    match run_steps l1 r with
    | (Return _, r1) => run_steps l2 r1
    | (Raise e, r1) => (Raise e, r1)
    end.
Proof.
  revert r. induction l1 as [|s l1 IH]; intros r; [reflexivity|].
  rewrite <- app_comm_cons, !run_steps_cons.
  destruct (step_fn s (shown (step_title s) r)) as [[[]|e] r1]; [apply IH|reflexivity].
Qed.

Lemma run_steps_cons_Return s l r r' :
  run_steps (s :: l) r = (Return tt, r') ->
  exists r1, step_fn s (shown (step_title s) r) = (Return tt, r1) /\
             run_steps l r1 = (Return tt, r').
Proof.
  rewrite run_steps_cons.
  destruct (step_fn s (shown (step_title s) r)) as [[[]|e] r1]; [eauto|discriminate].
Qed.

(** Steps after the first one that raises do not matter to the outcome. *)
Lemma run_steps_first_failure before s after r r1 r2 e :
  run_steps before r = (Return tt, r1) ->
  step_fn s (shown (step_title s) r1) = (Raise e, r2) ->
  run_steps (before ++ s :: after) r = (Raise e, r2).
Proof.
  intros Hbefore Hs. rewrite run_steps_app, Hbefore, run_steps_cons, Hs. reflexivity.
Qed.

(** When all of [l] has run, the bar has shown the titles of [l] in order. *)
Lemma run_steps_progress l r r' :
  Forall (fun s => preserves same_progress (step_fn s)) l ->
  run_steps l r = (Return tt, r') ->
  progress (world r') = (progress (world r) ++ (step_title <$> l))%list.
Proof.
  intros Hl. revert r. induction Hl as [|s l Hs Hl IH]; intros r Hrun.
  - injection Hrun as <-. cbn. rewrite app_nil_r. reflexivity.
  - apply run_steps_cons_Return in Hrun as (r1 & Hstep & Hrest).
    rewrite (IH _ Hrest).
    pose proof (Hs (shown (step_title s) r)) as Hp.
    rewrite Hstep in Hp. unfold same_progress in Hp. cbn in Hp.
    rewrite Hp, fmap_cons, <- app_assoc. reflexivity.
Qed.

Local Abbreviation the_steps := (steps execute csv_reader glob_glob).

(** C6: when the steps before position [k] have run and the step at
    position [k] raises [e], running the whole list raises that same [e] and
    ends in the very state in which that step raised, whatever steps are put
    after it; the progress bar has shown the titles up to position [k] and
    no later one. *)
Theorem pipeline_stops_at_first_failure (k : nat) (s : Step) (r r1 r2 : Run) (e : PyExn) :
  the_steps !! k = Some s ->
  run_steps (take k the_steps) r = (Return tt, r1) ->
  step_fn s (shown (step_title s) r1) = (Raise e, r2) ->
  run_steps the_steps r = (Raise e, r2) /\
  (forall later, run_steps (take k the_steps ++ s :: later)%list r = (Raise e, r2)) /\
  progress (world r2) = (progress (world r) ++ (step_title <$> take (S k) the_steps))%list.
Proof.
  intros Hk Hbefore Hs.
  assert (Hsplit : the_steps = (take k the_steps ++ s :: drop (S k) the_steps)%list).
  { rewrite <- (take_drop_middle _ _ _ Hk) at 1. reflexivity. }
  split; [|split].
  - rewrite Hsplit. eapply run_steps_first_failure; eassumption.
  - intros later. eapply run_steps_first_failure; eassumption.
  - assert (Hall : Forall (fun s => preserves same_progress (step_fn s)) the_steps)
      by apply steps_same_progress.
    rewrite (take_S_r _ _ _ Hk), fmap_app, app_assoc.
    rewrite <- (run_steps_progress _ _ _ (Forall_take _ k _ Hall) Hbefore).
    rewrite Forall_lookup in Hall.
    pose proof (Hall k s Hk (shown (step_title s) r1)) as Hp.
    rewrite Hs in Hp. exact Hp.
Qed.

(** C8: a run in which every step returns has shown exactly the six titles
    in their order, and is made of the six step functions in that order,
    each started in the state its predecessor left: gerbers, drill,
    archive, BOM, the loader of the fix-ups and then the placement step,
    which therefore starts with the context the loader has filled. *)
Theorem pipeline_order (r r' : Run) :
  run_steps the_steps r = (Return tt, r') ->
  step_title <$> the_steps =
    [ "Generate gerbers"; "Generate drill"; "Archive PCB fabrication outputs";
      "Generate BOM"; "Load pick-and-place fixup mappings";
      "Generate and fixup pick-and-place" ] /\
  progress (world r') = (progress (world r) ++ (step_title <$> the_steps))%list /\
  exists r1 r2 r3 r4 r5,
    generate_gerbers execute (shown "Generate gerbers" r) = (Return tt, r1) /\
    generate_drill execute (shown "Generate drill" r1) = (Return tt, r2) /\
    archive_pcb execute glob_glob (shown "Archive PCB fabrication outputs" r2)
      = (Return tt, r3) /\
    generate_bom execute (shown "Generate BOM" r3) = (Return tt, r4) /\
    load_pos_fixups execute csv_reader (shown "Load pick-and-place fixup mappings" r4)
      = (Return tt, r5) /\
    generate_pos execute csv_reader (shown "Generate and fixup pick-and-place" r5)
      = (Return tt, r').
Proof.
  intros Hrun. split; [reflexivity|]. split.
  - apply run_steps_progress; [apply steps_same_progress|exact Hrun].
  - unfold steps, script_step in Hrun.
    apply run_steps_cons_Return in Hrun as (r1 & H1 & Hrun).
    apply run_steps_cons_Return in Hrun as (r2 & H2 & Hrun).
    apply run_steps_cons_Return in Hrun as (r3 & H3 & Hrun).
    apply run_steps_cons_Return in Hrun as (r4 & H4 & Hrun).
    apply run_steps_cons_Return in Hrun as (r5 & H5 & Hrun).
    apply run_steps_cons_Return in Hrun as (r6 & H6 & Hrun).
    injection Hrun as <-.
    exists r1, r2, r3, r4, r5. auto 10.
Qed.

End Orchestrator.

(** ** Temporary files *)

Section TemporaryFiles.

Variable execute : list string -> FileSystem -> ProcOutcome.
Variable csv_reader : string -> list (list string).

(** After [try: ... finally: os.remove(filename)] there is no file of that
    name, whether the block returned or raised. *)
Lemma try_finally_os_remove_absent {A} (body : M Run A) filename r :
  files (fs (world (try_finally body (io (os_remove filename)) r).2)) !! filename = None.
Proof.
  unfold try_finally, io, os_remove.
  destruct (body r) as [x r1].
  destruct (files (fs (world r1)) !! filename) eqn:Hfile; cbn.
  - apply lookup_delete_eq.
  - exact Hfile.
Qed.

(** If the file is not there when the block is left, the exception of
    [os.remove] is what the caller gets, whatever the block had raised. *)
Lemma try_finally_os_remove_masks {A} (body : M Run A) filename r x r1 :
  body r = (x, r1) ->
  files (fs (world r1)) !! filename = None ->
  try_finally body (io (os_remove filename)) r = (Raise (FileNotFoundError filename), r1).
Proof.
  intros Hbody Hfile. unfold try_finally, io, os_remove.
  rewrite Hbody, Hfile. destruct r1. reflexivity.
Qed.

(** If the file is there, it is removed and the block's own result stands. *)
Lemma try_finally_os_remove_present {A} (body : M Run A) filename r x r1 text :
  body r = (x, r1) ->
  files (fs (world r1)) !! filename = Some text ->
  try_finally body (io (os_remove filename)) r =
    (x, mkRun (ec r1) (set_files (delete filename) (world r1))).
Proof.
  intros Hbody Hfile. unfold try_finally, io, os_remove.
  rewrite Hbody, Hfile. reflexivity.
Qed.

Lemma load_pos_fixups_temp_absent r :
  files (fs (world (load_pos_fixups execute csv_reader r).2))
    !! pos_fixups_filename (ec r) = None.
Proof. apply try_finally_os_remove_absent. Qed.

Lemma generate_pos_temp_absent r :
  files (fs (world (generate_pos execute csv_reader r).2))
    !! pre_fixup_pos_filename (ec r) = None.
Proof. apply try_finally_os_remove_absent. Qed.

(** The tool ends with a non-zero status and leaves no temporary file: the
    step raises the [FileNotFoundError] of [os.remove], not the error of
    [run_command]. *)
Lemma load_pos_fixups_masks_failure c w cp fs' :
  execute [kicad_path c; "sch"; "export"; "bom"; "--fields"; "Reference,PosRotAdjust";
           "-o"; pos_fixups_filename c; schema c] (fs w) = Exited cp fs' ->
  returncode cp <> 0 ->
  files fs' !! pos_fixups_filename c = None ->
  (load_pos_fixups execute csv_reader (mkRun c w)).1
    = Raise (FileNotFoundError (pos_fixups_filename c)).
Proof.
  unfold pos_fixups_filename. intros Hexec Hrc Hfile.
  unfold load_pos_fixups, bind at 1. cbn [get_ec]. cbv zeta. cbn [ec].
  apply Z.eqb_neq in Hrc.
  destruct (decode (stdout cp)) as [details|e] eqn:Hdecode.
  all: erewrite (try_finally_os_remove_masks _ _ _ _
                   (mkRun c (after_process _ fs' w))); [reflexivity| |exact Hfile].
  all: unfold bind, io; cbn [world ec].
  all: rewrite (run_command_exited _ _ _ _ _ Hexec), Hrc, Hdecode; reflexivity.
Qed.

Lemma generate_pos_masks_failure c w cp fs' :
  execute [kicad_path c; "pcb"; "export"; "pos"; "--format"; "csv"; "--units"; "mm";
           "--side"; "front"; "-o"; pre_fixup_pos_filename c; pcb c] (fs w)
    = Exited cp fs' ->
  returncode cp <> 0 ->
  files fs' !! pre_fixup_pos_filename c = None ->
  (generate_pos execute csv_reader (mkRun c w)).1
    = Raise (FileNotFoundError (pre_fixup_pos_filename c)).
Proof.
  unfold pre_fixup_pos_filename. intros Hexec Hrc Hfile.
  unfold generate_pos, bind at 1. cbn [get_ec]. cbv zeta. cbn [ec].
  apply Z.eqb_neq in Hrc.
  destruct (decode (stdout cp)) as [details|e] eqn:Hdecode.
  all: erewrite (try_finally_os_remove_masks _ _ _ _
                   (mkRun c (after_process _ fs' w))); [reflexivity| |exact Hfile].
  all: unfold bind, io; cbn [world ec].
  all: rewrite (run_command_exited _ _ _ _ _ Hexec), Hrc, Hdecode; reflexivity.
Qed.

End TemporaryFiles.

(** C2 (the code departs from it): the tool ends with status 1 after writing
    "boom" and creates no file.  [run_command] raises its [ScriptError], but
    the step does not pass it on: [os.remove] in the [finally] clause finds
    no file and its [FileNotFoundError] is what leaves the step, in the
    loader of the fix-ups and in the placement step alike. *)
Theorem temp_file_removal_masks_command_failure :
  (run_command (Sample.execute Sample.fixups_csv Sample.pos_csv Sample.always 1 Sample.boom)
     ["kicad-cli"; "sch"; "export"; "bom"; "--fields"; "Reference,PosRotAdjust";
      "-o"; "fab/pos-fixups.csv"; "board/board.kicad_sch"]
     Sample.empty_world).1
  = Raise (ScriptError
      "Error executing command kicad-cli sch export bom --fields Reference,PosRotAdjust -o fab/pos-fixups.csv board/board.kicad_sch"
      "boom" 2) /\
  (load_pos_fixups (Sample.execute Sample.fixups_csv Sample.pos_csv Sample.always 1 Sample.boom)
     Sample.csv_reader (mkRun Sample.context Sample.empty_world)).1
  = Raise (FileNotFoundError "fab/pos-fixups.csv") /\
  (generate_pos (Sample.execute Sample.fixups_csv Sample.pos_csv Sample.always 1 Sample.boom)
     Sample.csv_reader (mkRun Sample.context Sample.empty_world)).1
  = Raise (FileNotFoundError "fab/pre-fixup-pos.pos").
Proof. repeat split; vm_compute; reflexivity. Qed.

(** C1 (the code departs from it): the fix-ups hold a record for R1 only and
    the placement export has the rows of R1 and C2.  The subscript
    [ec.pos_fixups[pos_line[0]]] raises [KeyError] at C2; the step ends with
    that exception and the final file stops after the row of R1. *)
Theorem generate_pos_missing_fixup_raises :
  Sample.context_R1.(pos_fixups) !! Some "C2" = None /\
  fixup_pos_line Sample.context_R1.(pos_fixups) Sample.row_C2 = Raise (KeyError "C2") /\
  (generate_pos (Sample.execute Sample.fixups_csv Sample.pos_csv Sample.never 0 [])
     Sample.csv_reader (mkRun Sample.context_R1 Sample.empty_world)).1
  = Raise (KeyError "C2") /\
  files (fs (world
    (generate_pos (Sample.execute Sample.fixups_csv Sample.pos_csv Sample.never 0 [])
       Sample.csv_reader (mkRun Sample.context_R1 Sample.empty_world)).2))
    !! "fab/board.pos"
  = Some ("Designator,Val,Package,Mid X,Mid Y,Rotation,Layer" +:+ nl +:+
          dq +:+ "R1" +:+ dq +:+ "," +:+ dq +:+ "10k" +:+ dq +:+ "," +:+
          dq +:+ "0805" +:+ dq +:+ ",12.5,8.2,90,top" +:+ nl).
Proof. repeat split; vm_compute; reflexivity. Qed.

(** ** The final placement file *)

Lemma append_assoc (s1 s2 s3 : string) : (s1 +:+ s2) +:+ s3 = s1 +:+ s2 +:+ s3.
Proof.
  induction s1 as [|a s1 IH]; [reflexivity|].
  change (String a ((s1 +:+ s2) +:+ s3) = String a (s1 +:+ s2 +:+ s3)).
  f_equal. exact IH.
Qed.

Lemma append_empty_r (s : string) : s +:+ EmptyString = s.
Proof.
  induction s as [|a s IH]; [reflexivity|].
  change (String a (s +:+ EmptyString) = String a s). f_equal. exact IH.
Qed.

Lemma length_append (s1 s2 : string) :
  String.length (s1 +:+ s2) = (String.length s1 + String.length s2)%nat.
Proof.
  induction s1 as [|a s1 IH]; [reflexivity|].
  change (S (String.length (s1 +:+ s2)) = S (String.length s1 + String.length s2)).
  f_equal. exact IH.
Qed.

Lemma append_inj_r (s1 s2 t : string) : s1 +:+ t = s2 +:+ t -> s1 = s2.
Proof.
  revert s2. induction s1 as [|a s1 IH]; intros [|b s2] H.
  - reflexivity.
  - apply (f_equal String.length) in H.
    change (String.length t = S (String.length (s2 +:+ t))) in H.
    rewrite length_append in H. lia.
  - apply (f_equal String.length) in H.
    change (S (String.length (s1 +:+ t)) = String.length t) in H.
    rewrite length_append in H. lia.
  - change (String a (s1 +:+ t) = String b (s2 +:+ t)) in H.
    injection H as -> H. f_equal. apply IH, H.
Qed.

(** The two files of the placement step differ unless the project is called
    like the temporary file. *)
Lemma pos_filename_ne (c : ScriptExecutionContext) :
  project_base c <> "pre-fixup-pos" -> pre_fixup_pos_filename c <> pos_filename c.
Proof.
  intros Hne Heq. apply Hne. unfold pre_fixup_pos_filename, pos_filename in Heq.
  apply (inj (String.append (output c))) in Heq.
  change "/pre-fixup-pos.pos" with ("/" +:+ "pre-fixup-pos" +:+ ".pos") in Heq.
  apply (inj (String.append "/")) in Heq.
  symmetry. eapply append_inj_r, Heq.
Qed.

Section Inversion.

Context {S : Type}.

Lemma bind_Return {A B} (m : M S A) (k : A -> M S B) s b s' :
  bind m k s = (Return b, s') ->
  exists a s1, m s = (Return a, s1) /\ k a s1 = (Return b, s').
Proof.
  unfold bind. destruct (m s) as [[a|e] s1]; [eauto|discriminate].
Qed.

Lemma try_finally_Return {A} (body : M S A) (cleanup : M S unit) s a s' :
  try_finally body cleanup s = (Return a, s') ->
  exists s1, body s = (Return a, s1) /\ cleanup s1 = (Return tt, s').
Proof.
  unfold try_finally. destruct (body s) as [r s1].
  destruct (cleanup s1) as [[[]|e] s2] eqn:Hcleanup; [|discriminate].
  intros [= -> ->]. exists s1. split; [reflexivity|exact Hcleanup].
Qed.

Lemma lift_res_Return {A} (r : Res A) (s : S) a s' :
  lift_res r s = (Return a, s') -> r = Return a /\ s' = s.
Proof. unfold lift_res. intros [= -> ->]. auto. Qed.

End Inversion.

Lemma io_inv {A} (m : M World A) r x r' :
  io m r = (x, r') -> exists w', m (world r) = (x, w') /\ r' = mkRun (ec r) w'.
Proof. unfold io. destruct (m (world r)) as [x' w']. intros [= -> <-]. eauto. Qed.

Section PosFile.

Variable execute : list string -> FileSystem -> ProcOutcome.
Variable csv_reader : string -> list (list string).

Lemma run_command_Return command_args w w' :
  run_command execute command_args w = (Return tt, w') ->
  exists cp fs',
    execute command_args (fs w) = Exited cp fs' /\
    returncode cp = 0 /\
    w' = after_process command_args fs' w.
Proof.
  destruct (execute command_args (fs w)) as [|cp fs'] eqn:Hexec.
  - unfold run_command, bind, subprocess_run. rewrite Hexec. discriminate.
  - rewrite (run_command_exited _ _ _ _ _ Hexec).
    destruct (Z.eqb_spec (returncode cp) 0) as [Hrc|Hrc].
    + intros [= <-]. eauto.
    + destruct (decode (stdout cp)); discriminate.
Qed.

(** The loop of [generate_pos]: every row read gives one line, appended to
    what the file holds; no other file and no part of the context changes. *)
Lemma write_rows_Return (pos_file : string) (rows : list (list string)) r r' text :
  files (fs (world r)) !! pos_file = Some text ->
  for_each rows (fun pos_line =>
    do ec <- get_ec;
    do pos_line <- lift_res (fixup_pos_line (pos_fixups ec) pos_line);
    io (file_write pos_file (join "," pos_line)) ;;
    io (file_write pos_file nl)) r = (Return tt, r') ->
  exists outs,
    Forall2 (fun row out => fixup_pos_line (pos_fixups (ec r)) row = Return out) rows outs /\
    ec r' = ec r /\
    files (fs (world r')) !! pos_file = Some (text +:+ unlines (join "," <$> outs)).
Proof.
  revert r text. induction rows as [|row rows IH]; intros r text Htext Hrun.
  - injection Hrun as <-. exists []. split; [constructor|]. split; [reflexivity|].
    cbn. rewrite Htext, append_empty_r. reflexivity.
  - cbn [for_each] in Hrun.
    apply bind_Return in Hrun as ([] & r1 & Hbody & Hrest).
    apply bind_Return in Hbody as (c & r0 & Hget & Hbody).
    injection Hget as <- <-.
    apply bind_Return in Hbody as (out & r0 & Hline & Hbody).
    apply lift_res_Return in Hline as [Hline ->].
    apply bind_Return in Hbody as ([] & r2 & Hw1 & Hw2).
    apply io_inv in Hw1 as (w1 & Hw1 & ->). injection Hw1 as <-.
    apply io_inv in Hw2 as (w2 & Hw2 & ->). injection Hw2 as <-.
    cbn [ec world] in Hrest.
    apply (IH _ ((text +:+ join "," out) +:+ nl)) in Hrest as (outs & Houts & Hec & Hfile).
    + exists (out :: outs). split; [constructor; assumption|]. split; [exact Hec|].
      rewrite Hfile. cbn. rewrite !append_assoc. reflexivity.
    + cbn. rewrite !lookup_alter_eq, Htext. reflexivity.
Qed.

(** X18: when the placement step returns and the project is not called
    [pre-fixup-pos], like the temporary file, the final file holds the
    header line [Designator,Val,Package,Mid X,Mid Y,Rotation,Layer] followed
    by one line per row of the raw export after its header row, in the
    order of the export; each line is the comma-joined row in which the
    first three fields (reference, value, package) stand between double
    quotes and the later fields are as exported, bare, the sixth one (the
    rotation) being the one the fix-ups decide. *)
Theorem generate_pos_output (c : ScriptExecutionContext) (w : World) (r' : Run) :
  generate_pos execute csv_reader (mkRun c w) = (Return tt, r') ->
  project_base c <> "pre-fixup-pos" ->
  exists cp fs1 text header rows outs,
    execute [kicad_path c; "pcb"; "export"; "pos"; "--format"; "csv"; "--units"; "mm";
             "--side"; "front"; "-o"; pre_fixup_pos_filename c; pcb c] (fs w)
      = Exited cp fs1 /\
    files fs1 !! pre_fixup_pos_filename c = Some text /\
    csv_reader text = header :: rows /\
    Forall2 (fun row out =>
               fixup_pos_line (pos_fixups c) row = Return out /\
               exists reference value package rest rest',
                 row = reference :: value :: package :: rest /\
                 out = (dq +:+ reference +:+ dq) :: (dq +:+ value +:+ dq)
                         :: (dq +:+ package +:+ dq) :: rest' /\
                 length rest' = length rest /\
                 forall i, i <> 2%nat -> rest' !! i = rest !! i)
            rows outs /\
    files (fs (world r')) !! pos_filename c
      = Some ("Designator,Val,Package,Mid X,Mid Y,Rotation,Layer" +:+ nl
              +:+ unlines (join "," <$> outs)).
Proof.
  intros Hrun Hbase. unfold generate_pos in Hrun.
  apply bind_Return in Hrun as (c0 & r0 & Hget & Hrun). injection Hget as <- <-.
  apply try_finally_Return in Hrun as (r1 & Hbody & Hclean).
  apply bind_Return in Hbody as ([] & r2 & Hcmd & Hbody).
  apply io_inv in Hcmd as (w2 & Hcmd & ->).
  apply run_command_Return in Hcmd as (cp & fs1 & Hexec & _ & ->).
  apply bind_Return in Hbody as (text & r3 & Hopen & Hbody).
  apply io_inv in Hopen as (w3 & Hopen & ->). cbn [world ec] in Hopen.
  unfold open_read in Hopen. cbn [fs after_process] in Hopen.
  destruct (files fs1 !! (output c +:+ "/pre-fixup-pos.pos")) as [text'|] eqn:Htext;
    [|discriminate].
  injection Hopen as -> <-.
  apply bind_Return in Hbody as ([header rows] & r4 & Hnext & Hbody).
  apply lift_res_Return in Hnext as [Hnext ->].
  destruct (csv_reader text) as [|header' rows'] eqn:Hcsv; [discriminate|].
  injection Hnext as -> ->.
  apply bind_Return in Hbody as ([] & r5 & Hw0 & Hbody).
  apply io_inv in Hw0 as (w5 & Hw0 & ->). injection Hw0 as <-.
  apply bind_Return in Hbody as ([] & r6 & Hw1 & Hbody).
  apply io_inv in Hw1 as (w6 & Hw1 & ->). injection Hw1 as <-.
  apply bind_Return in Hbody as ([] & r7 & Hw2 & Hbody).
  apply io_inv in Hw2 as (w7 & Hw2 & ->). injection Hw2 as <-.
  cbn [ec world snd] in Hbody.
  apply (write_rows_Return _ _ _ _
           ("Designator,Val,Package,Mid X,Mid Y,Rotation,Layer" +:+ nl))
    in Hbody as (outs & Houts & Hec & Hfile).
  2:{ cbn. rewrite !lookup_alter_eq, lookup_insert_eq. reflexivity. }
  apply io_inv in Hclean as (w8 & Hclean & ->).
  unfold os_remove in Hclean.
  destruct (files (fs (world r1)) !! (output c +:+ "/pre-fixup-pos.pos")); [|discriminate].
  injection Hclean as <-.
  exists cp, fs1, text, header, rows, outs.
  split; [exact Hexec|]. split; [exact Htext|]. split; [exact Hcsv|]. split.
  - cbn [ec] in Houts. eapply Forall2_impl; [exact Houts|].
    intros row out Hrow. split; [exact Hrow|].
    apply fixup_pos_line_Return in Hrow. exact Hrow.
  - cbn. rewrite lookup_delete_ne; [exact Hfile|].
    apply pos_filename_ne, Hbase.
Qed.

End PosFile.

(** ** Which exceptions a computation can raise *)

Section Raises.

Context {S : Type} (P : PyExn -> Prop).

Local Abbreviation raises_only := (raises_only (S:=S) P).

Lemma raises_only_ret {A} (a : A) : raises_only (ret a).
Proof. intros s e s' H. discriminate H. Qed.

Lemma raises_only_raise {A} e : P e -> raises_only (@raise S A e).
Proof. intros He s e' s' [= <- _]. exact He. Qed.

Lemma raises_only_lift_res {A} (r : Res A) :
  (forall e, r = Raise e -> P e) -> raises_only (lift_res r).
Proof. intros Hr s e s' [= -> _]. apply Hr. reflexivity. Qed.

Lemma raises_only_bind {A B} (m : M S A) (k : A -> M S B) :
  raises_only m -> (forall a, raises_only (k a)) -> raises_only (bind m k).
Proof.
  intros Hm Hk s e s'. unfold bind.
  destruct (m s) as [[a|e1] s1] eqn:Hms.
  - apply Hk.
  - intros [= <- _]. eapply Hm, Hms.
Qed.

Lemma raises_only_for_each {A} (xs : list A) (body : A -> M S unit) :
  (forall x, raises_only (body x)) -> raises_only (for_each xs body).
Proof.
  intros Hbody. induction xs as [|x xs IH]; cbn.
  - apply raises_only_ret.
  - apply raises_only_bind; [apply Hbody|intros _; exact IH].
Qed.

Lemma raises_only_try_finally {A} (body : M S A) (cleanup : M S unit) :
  raises_only body -> raises_only cleanup -> raises_only (try_finally body cleanup).
Proof.
  intros Hb Hc s e s'. unfold try_finally.
  destruct (body s) as [r s1] eqn:Hbs.
  destruct (cleanup s1) as [[[]|e1] s2] eqn:Hcs.
  - intros [= -> _]. eapply Hb, Hbs.
  - intros [= <- _]. eapply Hc, Hcs.
Qed.

(** The same for results alone. *)
Lemma rbind_raises {A B} (r : Res A) (k : A -> Res B) :
  (forall e, r = Raise e -> P e) ->
  (forall a e, k a = Raise e -> P e) ->
  forall e, rbind r k = Raise e -> P e.
Proof.
  intros Hr Hk e. destruct r as [a|e1]; cbn.
  - apply Hk.
  - intros [= <-]. apply Hr. reflexivity.
Qed.

End Raises.

Lemma io_raises_only (P : PyExn -> Prop) {A} (m : M World A) :
  raises_only P m -> raises_only P (io m).
Proof.
  intros Hm r e r' H. apply io_inv in H as (w' & H & _). eapply Hm, H.
Qed.

Section StepRaises.

Variable execute : list string -> FileSystem -> ProcOutcome.
Variable csv_reader : string -> list (list string).
Variable glob_glob : string -> FileSystem -> list string.

Local Abbreviation P := command_failure_if_ScriptError.

Lemma run_command_raises command_args : raises_only P (run_command execute command_args).
Proof.
  intros w e w'.
  destruct (execute command_args (fs w)) as [|cp fs'] eqn:Hexec.
  - unfold run_command, bind, subprocess_run. rewrite Hexec. intros [= <- _]. exact I.
  - rewrite (run_command_exited _ _ _ _ _ Hexec).
    destruct (returncode cp =? 0)%Z; [discriminate|].
    unfold decode. destruct (utf8_valid (stdout cp)); intros [= <- _]; cbn; eauto.
Qed.

Lemma open_read_raises filename : raises_only P (open_read filename).
Proof.
  intros w e w'. unfold open_read.
  destruct (files (fs w) !! filename); intros [= <- _]. exact I.
Qed.

Lemma os_remove_raises filename : raises_only P (os_remove filename).
Proof.
  intros w e w'. unfold os_remove.
  destruct (files (fs w) !! filename); intros [= <- _]. exact I.
Qed.

Lemma list_getitem_raises l i e : list_getitem l i = Raise e -> P e.
Proof. unfold list_getitem. destruct (l !! i); intros [= <-]. exact I. Qed.

Lemma list_setitem_raises l i x e : list_setitem l i x = Raise e -> P e.
Proof. unfold list_setitem. case_decide; intros [= <-]. exact I. Qed.

Lemma dict_getitem_raises {V} (d : gmap string V) key e :
  dict_getitem d key = Raise e -> P e.
Proof. unfold dict_getitem. destruct (d !! key); intros [= <-]. exact I. Qed.

(** Handling a row raises [KeyError] or [IndexError] at most. *)
Ltac row_raises :=
  repeat first
    [ apply rbind_raises; [intros ?|intros ? ?]
    | apply list_getitem_raises
    | apply list_setitem_raises
    | apply dict_getitem_raises
    | solve [intros [=]] ].

Lemma fixup_pos_line_raises fixups pos_line e :
  fixup_pos_line fixups pos_line = Raise e -> P e.
Proof.
  unfold fixup_pos_line. revert e. row_raises.
  - destruct (fixups !! Some a); intros [= <-]. exact I.
  - destruct (dict_truthy a0); row_raises.
    destruct (opt_truthy a1); row_raises.
Qed.

Lemma next_raises {A} (l : list A) e : next l = Raise e -> P e.
Proof. destruct l; intros [= <-]. exact I. Qed.

Lemma get_ec_raises : raises_only P get_ec.
Proof. intros r e r' [=]. Qed.

Lemma pos_fixups_setitem_raises key value : raises_only P (pos_fixups_setitem key value).
Proof. intros r e r' [=]. Qed.

Ltac raises_steps :=
  repeat first
    [ apply raises_only_ret
    | apply get_ec_raises
    | apply pos_fixups_setitem_raises
    | apply raises_only_try_finally
    | apply raises_only_for_each; intros ?
    | apply raises_only_bind; [|intros ?]
    | apply raises_only_lift_res; intros ?;
      first [ apply dict_getitem_raises | apply next_raises | apply fixup_pos_line_raises ]
    | apply io_raises_only;
      first [ apply run_command_raises
            | apply open_read_raises
            | apply os_remove_raises
            | solve [intros ? ? ? [=]]
            | intros ? ? ? ?; eapply run_command_raises; eassumption ] ].

(** A [ScriptError] that leaves a step is the one of [run_command]. *)
Lemma steps_raise_command_failures :
  Forall (fun s => raises_only P (step_fn s)) (steps execute csv_reader glob_glob).
Proof.
  unfold steps, script_step.
  repeat apply List.Forall_cons; try apply List.Forall_nil; cbn [step_fn].
  - unfold generate_gerbers. raises_steps.
  - unfold generate_drill. raises_steps.
  - unfold archive_pcb. raises_steps.
  - unfold generate_bom. raises_steps.
  - unfold load_pos_fixups. raises_steps.
  - unfold generate_pos. raises_steps.
Qed.

Lemma run_steps_raises l :
  Forall (fun s => raises_only P (step_fn s)) l -> raises_only P (run_steps l).
Proof.
  intros Hl. unfold run_steps. induction Hl as [|s l Hs Hl IH]; cbn [for_each].
  - apply raises_only_ret.
  - apply raises_only_bind; [|intros _; exact IH].
    apply raises_only_bind; [|intros _; exact Hs].
    apply io_raises_only. intros w e w' [=].
Qed.

End StepRaises.

(** ** The command and its error handler *)

Section Inversion2.

Context {S : Type}.

Lemma bind_Raise {A B} (m : M S A) (k : A -> M S B) s e s' :
  bind m k s = (Raise e, s') ->
  m s = (Raise e, s') \/ exists a s1, m s = (Return a, s1) /\ k a s1 = (Raise e, s').
Proof.
  unfold bind. destruct (m s) as [[a|e1] s1]; [eauto|].
  intros [= -> ->]. left. reflexivity.
Qed.

End Inversion2.

Section Command.

Variable execute : list string -> FileSystem -> ProcOutcome.
Variable csv_reader : string -> list (list string).
Variable glob_glob : string -> FileSystem -> list string.
Variables (project : string) (schema pcb : option string) (output : string).
Variables (force : bool) (kicad_path : option string).

Local Abbreviation setup :=
  (generate_fab_setup project schema pcb output force kicad_path).
Local Abbreviation body :=
  (generate_fab_body execute csv_reader glob_glob project schema pcb output force kicad_path).
Local Abbreviation command :=
  (generate_fab execute csv_reader glob_glob project schema pcb output force kicad_path).
Local Abbreviation the_steps := (steps execute csv_reader glob_glob).

(** The output directory is there and may not be removed: the set-up raises
    its [ScriptError] before anything has changed. *)
Lemma setup_output_exists w :
  output ∈ dirs (fs w) -> force = false ->
  setup w = (Raise (output_exists_error output), w).
Proof.
  intros Hdir ->. unfold generate_fab_setup, bind, path_isdir, probe_kicad_path, ret.
  destruct (opt_truthy kicad_path); cbn [fst snd];
    rewrite (bool_decide_eq_true_2 _ Hdir); reflexivity.
Qed.

(** That is the only [ScriptError] of the set-up. *)
Lemma setup_raises w e w' :
  setup w = (Raise e, w') ->
  (e = output_exists_error output /\ output ∈ dirs (fs w) /\ force = false /\ w' = w)
  \/ is_ScriptError e = false.
Proof.
  unfold generate_fab_setup, bind, path_isdir, probe_kicad_path, ret.
  destruct (opt_truthy kicad_path); cbn [fst snd].
  all: destruct (bool_decide (output ∈ dirs (fs w))) eqn:Hdir.
  all: try destruct force.
  all: unfold shutil_rmtree, raise, os_makedirs, click_echo; cbn.
  all: repeat match goal with
         | |- context [if ?b then _ else _] => destruct b eqn:?
         end.
  all: intros [= <- <-]; try (right; reflexivity).
  all: left; repeat split; apply bool_decide_eq_true in Hdir; exact Hdir.
Qed.

Lemma with_context_inv {A} c (m : M Run A) w x w' :
  with_context c m w = (x, w') -> exists r', m (mkRun c w) = (x, r') /\ w' = world r'.
Proof.
  unfold with_context. destruct (m (mkRun c w)) as [x' r']. intros [= -> <-]. eauto.
Qed.

(** The [try] block returns only past its last message, and then [None]. *)
Lemma body_Return w v w' :
  body w = (Return v, w') -> v = None /\ last (terminal w') = Some "Done.".
Proof.
  unfold generate_fab_body. intros H.
  apply bind_Return in H as (c & w1 & _ & H).
  apply bind_Return in H as ([] & w2 & _ & H).
  apply bind_Return in H as ([] & w3 & Hecho & H).
  injection Hecho as <-. injection H as <- <-.
  split; [reflexivity|]. cbn. apply last_snoc.
Qed.

(** It raises what the set-up raises or what the steps raise. *)
Lemma body_Raise w e w' :
  body w = (Raise e, w') ->
  setup w = (Raise e, w') \/
  exists c w1 r2,
    setup w = (Return c, w1) /\
    run_steps the_steps (mkRun c w1) = (Raise e, r2) /\
    w' = world r2.
Proof.
  unfold generate_fab_body. intros H.
  apply bind_Raise in H as [H|(c & w1 & Hsetup & H)]; [left; exact H|right].
  apply bind_Raise in H as [H|([] & w2 & _ & H)].
  - apply with_context_inv in H as (r2 & Hrun & ->). eauto 6.
  - apply bind_Raise in H as [H|([] & w3 & _ & H)]; discriminate H.
Qed.

Lemma body_steps_Raise w c w1 e r2 :
  setup w = (Return c, w1) ->
  run_steps the_steps (mkRun c w1) = (Raise e, r2) ->
  body w = (Raise e, world r2).
Proof.
  intros Hsetup Hrun. unfold generate_fab_body, bind, with_context.
  rewrite Hsetup, Hrun. reflexivity.
Qed.

(** The command with its handler, by what the [try] block did. *)
Lemma command_of_body w :
  command w =
    match body w with
    | (Raise (ScriptError title details error_code), w1) =>
      (Return (Some error_code),
       mkWorld (fs w1) (invocations w1) ((terminal w1 ++ [style_red title]) ++ [details])
               (progress w1))
    | other => other
    end.
Proof.
  unfold generate_fab, try_except_ScriptError.
  destruct (body w) as [[v|[]] w1]; reflexivity.
Qed.

(** X19: whatever the command function is given, its outcome is one of
    these.  It returns an error code exactly when the [try] block raised a
    [ScriptError]; the highlighted title and the details of that error are
    then the last two lines printed and the code is the error's; the code
    is 1 for the error about an output directory that exists while the
    force flag is off, which is raised whenever that is the case, and
    otherwise 2, the error being that of an external command that ended
    with a non-zero status.  It returns [None] when the block came to its
    end, the last line printed being the completion message.  Any other
    exception, such as the one for output that is not UTF-8, is not handled
    and leaves the function without a code.  (What the function returns is
    not the status of the process, for which see [main].) *)
Theorem generate_fab_exit_codes (w : World) (result : Res (option Z)) (w' : World) :
  command w = (result, w') ->
  (output ∈ dirs (fs w) -> force = false ->
     result = Return (Some 1) /\
     terminal w' = terminal w ++
       [style_red (dq +:+ output +:+ dq +:+ " already exists.");
        "Use --fore to remove and re-create, or --output to specify a different path"])%list /\
  (forall error_code, result = Return (Some error_code) ->
     exists title details w1,
       body w = (Raise (ScriptError title details error_code), w1) /\
       terminal w' = (terminal w1 ++ [style_red title; details])%list /\
       fs w' = fs w1 /\
       ((error_code = 1 /\ output ∈ dirs (fs w) /\ force = false) \/
        (error_code = 2 /\
         exists command_args,
           title = "Error executing command " +:+ join " " command_args))) /\
  (result = Return None ->
     body w = (Return None, w') /\ last (terminal w') = Some "Done.") /\
  (forall e, result = Raise e -> is_ScriptError e = false /\ body w = (Raise e, w')).
Proof.
  rewrite command_of_body. intros Hcmd. split; [|split; [|split]].
  - intros Hdir Hforce.
    assert (Hbody : body w = (Raise (output_exists_error output), w)).
    { unfold generate_fab_body, bind. rewrite (setup_output_exists _ Hdir Hforce).
      reflexivity. }
    rewrite Hbody in Hcmd. unfold output_exists_error in Hcmd.
    injection Hcmd as <- <-. split; [reflexivity|]. cbn. rewrite <- app_assoc. reflexivity.
  - intros error_code ->.
    destruct (body w) as [[v|e] w1] eqn:Hbody.
    + injection Hcmd as -> <-. apply body_Return in Hbody as [[=] _].
    + destruct e; try discriminate Hcmd. injection Hcmd as -> <-.
      exists title, details, w1. split; [reflexivity|].
      split; [cbn; rewrite <- app_assoc; reflexivity|]. split; [reflexivity|].
      apply body_Raise in Hbody as [Hsetup|(c & w2 & r2 & _ & Hrun & _)].
      * apply setup_raises in Hsetup as [(He & Hdir & Hforce & _)|[=]].
        injection He as _ _ ->. left. auto.
      * right.
        exact (run_steps_raises _
                 (steps_raise_command_failures execute csv_reader glob_glob) _ _ _ Hrun).
  - intros ->.
    destruct (body w) as [[v|e] w1] eqn:Hbody.
    + injection Hcmd as -> <-. split; [reflexivity|].
      apply body_Return in Hbody as [_ Hlast]. exact Hlast.
    + destruct e; discriminate Hcmd.
  - intros e ->.
    destruct (body w) as [[v|e1] w1] eqn:Hbody; [discriminate Hcmd|].
    destruct e1; try discriminate Hcmd; injection Hcmd as <- <-; split; reflexivity.
Qed.

(** C10: the handler is for [ScriptError] alone.  When a step raises any
    other exception, be it the [FileNotFoundError] of [os.remove], the
    [KeyError] of the look-up of a reference or the [StopIteration] of
    [next] on an export without lines, the command raises that exception:
    it ends in the very state in which the step raised, with nothing printed
    by the handler, and it returns no code. *)
Theorem other_exceptions_escape (w : World) (c : ScriptExecutionContext) (w1 : World)
    (e : PyExn) (r2 : Run) :
  setup w = (Return c, w1) ->
  run_steps the_steps (mkRun c w1) = (Raise e, r2) ->
  is_ScriptError e = false ->
  command w = (Raise e, world r2).
Proof.
  intros Hsetup Hrun He.
  rewrite command_of_body, (body_steps_Raise _ _ _ _ _ Hsetup Hrun).
  destruct e; [discriminate He|reflexivity..].
Qed.

End Command.

(** * Runs on the sample environment *)


Example fixup_pos_line_R1 :
  fixup_pos_line {[ Some "R1" := Sample.fixup_R1 ]} Sample.row_R1
  = Return [dq +:+ "R1" +:+ dq; dq +:+ "10k" +:+ dq; dq +:+ "0805" +:+ dq;
            "12.5"; "8.2"; "90"; "top"].
Proof. vm_compute. reflexivity. Qed.

Example fixup_pos_line_C2_empty_adjust :
  fixup_pos_line {[ Some "C2" := Sample.fixup_C2 ]} Sample.row_C2
  = Return [dq +:+ "C2" +:+ dq; dq +:+ "100nF" +:+ dq; dq +:+ "0603" +:+ dq;
            "5.0"; "5.0"; "180"; "top"].
Proof. vm_compute. reflexivity. Qed.

(** The placement step on an export with the row of R1, the fix-ups holding
    [{"R1": PosRotAdjust="90"}]. *)
Lemma generate_pos_output_witness :
  exists cp fs1 text header rows outs,
    Sample.tool_ok
      ["kicad-cli"; "pcb"; "export"; "pos"; "--format"; "csv"; "--units"; "mm";
       "--side"; "front"; "-o"; "fab/pre-fixup-pos.pos"; "board/board.kicad_pcb"]
      (mkFS ∅ ∅) = Exited cp fs1 /\
    files fs1 !! "fab/pre-fixup-pos.pos" = Some text /\
    Sample.csv_reader text = header :: rows /\
    Forall2 (fun row out =>
               fixup_pos_line {[ Some "R1" := Sample.fixup_R1 ]} row = Return out /\
               exists reference value package rest rest',
                 row = reference :: value :: package :: rest /\
                 out = (dq +:+ reference +:+ dq) :: (dq +:+ value +:+ dq)
                         :: (dq +:+ package +:+ dq) :: rest' /\
                 length rest' = length rest /\
                 forall i, i <> 2%nat -> rest' !! i = rest !! i)
            rows outs /\
    files (fs (world (generate_pos Sample.tool_ok Sample.csv_reader
                        (mkRun Sample.context_R1 Sample.empty_world)).2))
      !! "fab/board.pos"
    = Some ("Designator,Val,Package,Mid X,Mid Y,Rotation,Layer" +:+ nl
            +:+ unlines (join "," <$> outs)).
Proof.
  apply (generate_pos_output Sample.tool_ok Sample.csv_reader
           Sample.context_R1 Sample.empty_world).
  - vm_compute. reflexivity.
  - discriminate.
Defined.

(** C5 (the code departs from it): for a project kept in a folder named
    [pre-fixup-pos] the final placement file has the path of the temporary
    export, [fab/pre-fixup-pos.pos].  The tool writes the export with the row
    of R1 there and ends with status 0; the step returns, having written
    the header and the fixed row to that path, and its own clean-up has
    removed the file: no placement file is left, with or without header. *)
Theorem generate_pos_removes_final_file :
  pos_filename Sample.context_pre_fixup_pos = "fab/pre-fixup-pos.pos" /\
  pre_fixup_pos_filename Sample.context_pre_fixup_pos = "fab/pre-fixup-pos.pos" /\
  Sample.tool_ok (pos_export_args Sample.context_pre_fixup_pos) (mkFS ∅ ∅)
  = Exited (mkCP 0 []) (mkFS {[ "fab/pre-fixup-pos.pos" := Sample.pos_csv_R1 ]} ∅) /\
  generate_pos Sample.tool_ok Sample.csv_reader
    (mkRun Sample.context_pre_fixup_pos Sample.empty_world)
  = (Return tt,
     mkRun Sample.context_pre_fixup_pos
       (mkWorld (mkFS ∅ ∅) [pos_export_args Sample.context_pre_fixup_pos] [] [])) /\
  files (fs (world (generate_pos Sample.tool_ok Sample.csv_reader
                      (mkRun Sample.context_pre_fixup_pos Sample.empty_world)).2))
    !! pos_filename Sample.context_pre_fixup_pos = None.
Proof. repeat split; vm_compute; reflexivity. Qed.

(** The same through the whole command: run on the project folder
    [pre-fixup-pos], it prints the completion message and returns no error
    code, and the output directory holds no placement file. *)
Example generate_fab_pre_fixup_pos :
  (generate_fab Sample.tool_ok Sample.csv_reader Sample.glob_glob
     "pre-fixup-pos" None None "fab" false None Sample.empty_world).1 = Return None /\
  last (terminal
    (generate_fab Sample.tool_ok Sample.csv_reader Sample.glob_glob
       "pre-fixup-pos" None None "fab" false None Sample.empty_world).2) = Some "Done." /\
  files (fs (generate_fab Sample.tool_ok Sample.csv_reader Sample.glob_glob
               "pre-fixup-pos" None None "fab" false None Sample.empty_world).2)
  = ∅.
Proof. repeat split; vm_compute; reflexivity. Qed.

Example generate_pos_R1 :
  files (fs (world (generate_pos Sample.tool_ok Sample.csv_reader
                      (mkRun Sample.context_R1 Sample.empty_world)).2))
  = {[ "fab/board.pos" :=
         "Designator,Val,Package,Mid X,Mid Y,Rotation,Layer" +:+ nl +:+
         dq +:+ "R1" +:+ dq +:+ "," +:+ dq +:+ "10k" +:+ dq +:+ "," +:+
         dq +:+ "0805" +:+ dq +:+ ",12.5,8.2,90,top" +:+ nl ]}.
Proof. vm_compute. reflexivity. Qed.

(** The drill export ends with status 1 after writing "boom". *)
Lemma pipeline_stops_at_first_failure_witness :
  (run_steps (steps (Sample.tool_failing "drill" Sample.boom) Sample.csv_reader
                Sample.glob_glob) Sample.start).1
  = Raise (ScriptError
      "Error executing command kicad-cli pcb export drill --map-format gerberx2 -o fab/ board/board.kicad_pcb"
      "boom" 2) /\
  progress (world
    (run_steps (steps (Sample.tool_failing "drill" Sample.boom) Sample.csv_reader
                  Sample.glob_glob) Sample.start).2)
  = ["Generate gerbers"; "Generate drill"] /\
  length (invocations (world
    (run_steps (steps (Sample.tool_failing "drill" Sample.boom) Sample.csv_reader
                  Sample.glob_glob) Sample.start).2)) = 2%nat.
Proof.
  destruct (pipeline_stops_at_first_failure
              (Sample.tool_failing "drill" Sample.boom) Sample.csv_reader Sample.glob_glob
              1
              (script_step "Generate drill"
                 (generate_drill (Sample.tool_failing "drill" Sample.boom)))
              Sample.start
              (mkRun Sample.context
                 (mkWorld (mkFS ∅ ∅)
                    [["kicad-cli"; "pcb"; "export"; "gerbers"; "-l";
                      "F.Cu,F.Paste,F.Silkscreen,F.Mask,B.Cu,B.Paste,B.Silkscreen,B.Mask,Edge.Cuts";
                      "--no-x2"; "--subtract-soldermask"; "-o"; "fab";
                      "board/board.kicad_pcb"]]
                    [] ["Generate gerbers"]))
              (mkRun Sample.context
                 (mkWorld (mkFS ∅ ∅)
                    [["kicad-cli"; "pcb"; "export"; "gerbers"; "-l";
                      "F.Cu,F.Paste,F.Silkscreen,F.Mask,B.Cu,B.Paste,B.Silkscreen,B.Mask,Edge.Cuts";
                      "--no-x2"; "--subtract-soldermask"; "-o"; "fab";
                      "board/board.kicad_pcb"];
                     ["kicad-cli"; "pcb"; "export"; "drill"; "--map-format"; "gerberx2";
                      "-o"; "fab/"; "board/board.kicad_pcb"]]
                    [] ["Generate gerbers"; "Generate drill"]))
              (ScriptError
                 "Error executing command kicad-cli pcb export drill --map-format gerberx2 -o fab/ board/board.kicad_pcb"
                 "boom" 2))
    as (Hrun & _ & Hprogress).
  - reflexivity.
  - vm_compute. reflexivity.
  - vm_compute. reflexivity.
  - rewrite Hrun. split; [reflexivity|]. split; reflexivity.
Defined.

(** A run in which all six steps return. *)
Lemma pipeline_order_witness :
  step_title <$> steps Sample.tool_ok Sample.csv_reader Sample.glob_glob =
    [ "Generate gerbers"; "Generate drill"; "Archive PCB fabrication outputs";
      "Generate BOM"; "Load pick-and-place fixup mappings";
      "Generate and fixup pick-and-place" ] /\
  progress (world
    (run_steps (steps Sample.tool_ok Sample.csv_reader Sample.glob_glob) Sample.start).2)
  = (progress (world Sample.start)
     ++ (step_title <$> steps Sample.tool_ok Sample.csv_reader Sample.glob_glob))%list /\
  exists r1 r2 r3 r4 r5,
    generate_gerbers Sample.tool_ok (shown "Generate gerbers" Sample.start)
      = (Return tt, r1) /\
    generate_drill Sample.tool_ok (shown "Generate drill" r1) = (Return tt, r2) /\
    archive_pcb Sample.tool_ok Sample.glob_glob
      (shown "Archive PCB fabrication outputs" r2) = (Return tt, r3) /\
    generate_bom Sample.tool_ok (shown "Generate BOM" r3) = (Return tt, r4) /\
    load_pos_fixups Sample.tool_ok Sample.csv_reader
      (shown "Load pick-and-place fixup mappings" r4) = (Return tt, r5) /\
    generate_pos Sample.tool_ok Sample.csv_reader
      (shown "Generate and fixup pick-and-place" r5)
    = (Return tt,
       (run_steps (steps Sample.tool_ok Sample.csv_reader Sample.glob_glob) Sample.start).2).
Proof.
  apply (pipeline_order Sample.tool_ok Sample.csv_reader Sample.glob_glob Sample.start).
  vm_compute. reflexivity.
Defined.

Example pipeline_fills_fixups_before_placement :
  pos_fixups (ec
    (run_steps (take 5 (steps Sample.tool_ok Sample.csv_reader Sample.glob_glob))
       Sample.start).2)
  = {[ Some "R1" := Sample.fixup_R1 ]}.
Proof. vm_compute. reflexivity. Qed.

(** The first step run from the sample start. *)
Lemma steps_keep_configuration_witness :
  same_config Sample.start (generate_gerbers Sample.tool_ok Sample.start).2 /\
  ec (generate_gerbers Sample.tool_ok Sample.start).2 = ec Sample.start.
Proof.
  pose proof (Forall_lookup_1 _ _ 0%nat _
                (steps_keep_configuration Sample.tool_ok Sample.csv_reader Sample.glob_glob)
                eq_refl Sample.start) as [Hconfig Hcontext].
  split; [exact Hconfig|]. apply Hcontext. discriminate.
Defined.

(** The gerber export ends with status 1 after writing "boom". *)
Lemma generate_fab_exit_codes_witness :
  exists title details w1,
    generate_fab_body (Sample.tool_failing "gerbers" Sample.boom) Sample.csv_reader
      Sample.glob_glob "board" None None "fab" false None Sample.empty_world
    = (Raise (ScriptError title details 2), w1) /\
    terminal
      (generate_fab (Sample.tool_failing "gerbers" Sample.boom) Sample.csv_reader
         Sample.glob_glob "board" None None "fab" false None Sample.empty_world).2
    = (terminal w1 ++ [style_red title; details])%list /\
    fs (generate_fab (Sample.tool_failing "gerbers" Sample.boom) Sample.csv_reader
          Sample.glob_glob "board" None None "fab" false None Sample.empty_world).2
    = fs w1 /\
    ((2 = 1 /\ "fab" ∈ dirs (fs Sample.empty_world) /\ false = false) \/
     (2 = 2 /\
      exists command_args, title = "Error executing command " +:+ join " " command_args)).
Proof.
  apply (proj1 (proj2
    (generate_fab_exit_codes (Sample.tool_failing "gerbers" Sample.boom) Sample.csv_reader
       Sample.glob_glob "board" None None "fab" false None Sample.empty_world
       (Return (Some 2))
       (generate_fab (Sample.tool_failing "gerbers" Sample.boom) Sample.csv_reader
          Sample.glob_glob "board" None None "fab" false None Sample.empty_world).2
       ltac:(vm_compute; reflexivity)))).
  reflexivity.
Defined.

Example generate_fab_output_exists :
  generate_fab Sample.tool_ok Sample.csv_reader Sample.glob_glob
    "board" None None "fab" false None (mkWorld (mkFS ∅ {[ "fab" ]}) [] [] [])
  = (Return (Some 1),
     mkWorld (mkFS ∅ {[ "fab" ]}) []
       [style_red (dq +:+ "fab" +:+ dq +:+ " already exists.");
        "Use --fore to remove and re-create, or --output to specify a different path"]
       []).
Proof. vm_compute. reflexivity. Qed.

Example generate_fab_command_failure :
  (generate_fab (Sample.tool_failing "gerbers" Sample.boom) Sample.csv_reader
     Sample.glob_glob "board" None None "fab" false None Sample.empty_world).1
  = Return (Some 2) /\
  terminal
    (generate_fab (Sample.tool_failing "gerbers" Sample.boom) Sample.csv_reader
       Sample.glob_glob "board" None None "fab" false None Sample.empty_world).2
  = [ "Using kicad-cli to generate fabraction outputs for PCB board/board.kicad_pcb and schema board/board.kicad_sch";
      style_red "Error executing command kicad-cli pcb export gerbers -l F.Cu,F.Paste,F.Silkscreen,F.Mask,B.Cu,B.Paste,B.Silkscreen,B.Mask,Edge.Cuts --no-x2 --subtract-soldermask -o fab board/board.kicad_pcb";
      "boom" ].
Proof. split; vm_compute; reflexivity. Qed.

Example generate_fab_success :
  (generate_fab Sample.tool_ok Sample.csv_reader Sample.glob_glob
     "board" None None "fab" false None Sample.empty_world).1 = Return None /\
  last (terminal
    (generate_fab Sample.tool_ok Sample.csv_reader Sample.glob_glob
       "board" None None "fab" false None Sample.empty_world).2) = Some "Done.".
Proof. split; vm_compute; reflexivity. Qed.

(** The gerber export ends with status 1, an external command failure,
    after writing the single byte 0xFF: the command function raises
    [UnicodeDecodeError], returns no code 2 and prints no title. *)
Lemma generate_fab_undecodable_output :
  Sample.tool_failing "gerbers" [xff]
    ["kicad-cli"; "pcb"; "export"; "gerbers"; "-l";
     "F.Cu,F.Paste,F.Silkscreen,F.Mask,B.Cu,B.Paste,B.Silkscreen,B.Mask,Edge.Cuts";
     "--no-x2"; "--subtract-soldermask"; "-o"; "fab"; "board/board.kicad_pcb"]
    (mkFS ∅ {[ "fab" ]})
  = Exited (mkCP 1 [xff]) (mkFS ∅ {[ "fab" ]}) /\
  generate_fab (Sample.tool_failing "gerbers" [xff]) Sample.csv_reader
    Sample.glob_glob "board" None None "fab" false None Sample.empty_world
  = (Raise UnicodeDecodeError,
     mkWorld (mkFS ∅ {[ "fab" ]})
       [["kicad-cli"; "pcb"; "export"; "gerbers"; "-l";
         "F.Cu,F.Paste,F.Silkscreen,F.Mask,B.Cu,B.Paste,B.Silkscreen,B.Mask,Edge.Cuts";
         "--no-x2"; "--subtract-soldermask"; "-o"; "fab"; "board/board.kicad_pcb"]]
       ["Using kicad-cli to generate fabraction outputs for PCB board/board.kicad_pcb and schema board/board.kicad_sch"]
       ["Generate gerbers"]) /\
  (generate_fab (Sample.tool_failing "gerbers" [xff]) Sample.csv_reader
     Sample.glob_glob "board" None None "fab" false None Sample.empty_world).1
  <> Return (Some 2).
Proof.
  split; [vm_compute; reflexivity|]. split; [vm_compute; reflexivity|].
  vm_compute. discriminate.
Qed.

(** Whatever code the command function returns, the process ends with
    status 0; the status is 1 when an exception leaves the function, and
    never 2. *)
Lemma main_drops_error_code execute csv_reader glob_glob project schema pcb output force
    kicad_path (w : World) (error_code : option Z) (w' : World) :
  generate_fab execute csv_reader glob_glob project schema pcb output force kicad_path w
  = (Return error_code, w') ->
  main execute csv_reader glob_glob project schema pcb output force kicad_path w = (0, w').
Proof. unfold main. intros ->. reflexivity. Qed.

Lemma main_status execute csv_reader glob_glob project schema pcb output force kicad_path
    (w : World) :
  (main execute csv_reader glob_glob project schema pcb output force kicad_path w).1
  = match (generate_fab execute csv_reader glob_glob project schema pcb output force
             kicad_path w).1 with
    | Return _ => 0
    | Raise _ => 1
    end.
Proof.
  unfold main.
  destruct (generate_fab execute csv_reader glob_glob project schema pcb output force
              kicad_path w) as [[v|e] w']; reflexivity.
Qed.

(** C7 (the code departs from it): the handler ends with
    [return se.error_code], but the value goes to click, which does not pass
    it on as the status of the process.  With the output directory [fab]
    there and no force flag the function prints the error and returns 1,
    and with a gerber export that ends with status 1 after writing "boom"
    it prints the error and returns 2; the script exits with status 0 both
    times, as it does when all steps succeed. *)
Theorem handled_errors_exit_with_status_0 :
  (generate_fab Sample.tool_ok Sample.csv_reader Sample.glob_glob
     "board" None None "fab" false None (mkWorld (mkFS ∅ {[ "fab" ]}) [] [] [])).1
  = Return (Some 1) /\
  (main Sample.tool_ok Sample.csv_reader Sample.glob_glob
     "board" None None "fab" false None (mkWorld (mkFS ∅ {[ "fab" ]}) [] [] [])).1 = 0 /\
  (generate_fab (Sample.tool_failing "gerbers" Sample.boom) Sample.csv_reader
     Sample.glob_glob "board" None None "fab" false None Sample.empty_world).1
  = Return (Some 2) /\
  (main (Sample.tool_failing "gerbers" Sample.boom) Sample.csv_reader
     Sample.glob_glob "board" None None "fab" false None Sample.empty_world).1 = 0 /\
  (generate_fab Sample.tool_ok Sample.csv_reader Sample.glob_glob
     "board" None None "fab" false None Sample.empty_world).1 = Return None /\
  (main Sample.tool_ok Sample.csv_reader Sample.glob_glob
     "board" None None "fab" false None Sample.empty_world).1 = 0.
Proof. repeat split; vm_compute; reflexivity. Qed.

(** The placement export has a row for C2, the fix-ups have no record of it. *)
Lemma other_exceptions_escape_witness :
  (generate_fab Sample.tool_missing Sample.csv_reader Sample.glob_glob
     "board" None None "fab" false None Sample.empty_world).1
  = Raise (KeyError "C2") /\
  terminal
    (generate_fab Sample.tool_missing Sample.csv_reader Sample.glob_glob
       "board" None None "fab" false None Sample.empty_world).2
  = ["Using kicad-cli to generate fabraction outputs for PCB board/board.kicad_pcb and schema board/board.kicad_sch"].
Proof.
  rewrite (other_exceptions_escape Sample.tool_missing Sample.csv_reader Sample.glob_glob
             "board" None None "fab" false None Sample.empty_world
             Sample.context
             (generate_fab_setup "board" None None "fab" false None Sample.empty_world).2
             (KeyError "C2")
             (run_steps (steps Sample.tool_missing Sample.csv_reader Sample.glob_glob)
                (mkRun Sample.context
                   (generate_fab_setup "board" None None "fab" false None
                      Sample.empty_world).2)).2).
  - split; vm_compute; reflexivity.
  - vm_compute. reflexivity.
  - vm_compute. reflexivity.
  - reflexivity.
Defined.

Example temp_file_removal_escapes :
  (generate_fab (Sample.tool_failing "Reference,PosRotAdjust" Sample.boom)
     Sample.csv_reader Sample.glob_glob
     "board" None None "fab" false None Sample.empty_world).1
  = Raise (FileNotFoundError "fab/pos-fixups.csv").
Proof. vm_compute. reflexivity. Qed.

Example empty_placement_export_escapes :
  (generate_fab Sample.tool_empty_pos Sample.csv_reader Sample.glob_glob
     "board" None None "fab" false None Sample.empty_world).1
  = Raise StopIteration.
Proof. vm_compute. reflexivity. Qed.

(** * Further properties of the script *)

(** ** Walking through a computation *)

Global Instance on_context_preorder Q `{!PreOrder Q} : PreOrder (on_context Q).
Proof.
  split.
  - intros r. unfold on_context. reflexivity.
  - intros r1 r2 r3. unfold on_context. intros H1 H2. etrans; eassumption.
Qed.

Global Instance on_world_preorder Q `{!PreOrder Q} : PreOrder (on_world Q).
Proof.
  split.
  - intros r. unfold on_world. reflexivity.
  - intros r1 r2 r3. unfold on_world. intros H1 H2. etrans; eassumption.
Qed.

Global Instance fixups_kept_preorder : PreOrder fixups_kept.
Proof.
  split.
  - intros c. unfold fixups_kept. set_solver.
  - intros c1 c2 c3. unfold fixups_kept. set_solver.
Qed.

Global Instance keeps_keyed_preorder : PreOrder keeps_keyed.
Proof. split; unfold keeps_keyed; [intros c|intros c1 c2 c3]; auto. Qed.

Global Instance same_terminal_preorder : PreOrder same_terminal.
Proof. split; unfold same_terminal; [intros w|intros w1 w2 w3]; congruence. Qed.

Global Instance same_invocations_preorder : PreOrder same_invocations.
Proof. split; unfold same_invocations; [intros w|intros w1 w2 w3]; congruence. Qed.

(** An operation on the world leaves the context alone. *)
Lemma io_on_context Q `{!PreOrder Q} {A} (m : M World A) : preserves (on_context Q) (io m).
Proof.
  intros r. unfold io, on_context. destruct (m (world r)). cbn. reflexivity.
Qed.

Lemma io_on_world (Q : World -> World -> Prop) {A} (m : M World A) :
  (forall w, Q w (m w).2) -> preserves (on_world Q) (io m).
Proof.
  intros H r. unfold io, on_world. specialize (H (world r)).
  destruct (m (world r)). exact H.
Qed.

Lemma pos_fixups_setitem_on_world Q `{!PreOrder Q} key value :
  preserves (on_world Q) (pos_fixups_setitem key value).
Proof. intros r. unfold on_world. cbn. reflexivity. Qed.

(** Take a computation apart along its structure, down to its operations. *)
Ltac walk_preserves :=
  repeat first
    [ solve [apply preserves_ret; apply _]
    | solve [apply preserves_raise; apply _]
    | solve [apply preserves_lift_res; apply _]
    | solve [apply get_ec_preserves; apply _]
    | apply preserves_try_finally; [apply _| |]
    | apply preserves_for_each; [apply _|intros ?]
    | apply preserves_bind; [apply _| |intros ?] ].

Lemma run_steps_preserves (R : Run -> Run -> Prop) `{!PreOrder R} (l : list Step) :
  (forall title, preserves R (io (show_item title))) ->
  Forall (fun s => preserves R (step_fn s)) l ->
  preserves R (run_steps l).
Proof.
  intros Hshow Hl. unfold run_steps. induction Hl as [|s l Hs Hl IH]; cbn [for_each].
  - apply preserves_ret. apply _.
  - apply preserves_bind; [apply _| |intros _; exact IH].
    apply preserves_bind; [apply _|apply Hshow|intros _; exact Hs].
Qed.

(** ** Temporary files, again *)

Section TemporaryFiles2.

Variable execute : list string -> FileSystem -> ProcOutcome.
Variable csv_reader : string -> list (list string).

Lemma run_command_result command_args w cp fs' :
  execute command_args (fs w) = Exited cp fs' ->
  run_command execute command_args w
    = (command_result command_args cp, after_process command_args fs' w).
Proof. intros Hexec. rewrite (run_command_exited _ _ _ _ _ Hexec). reflexivity. Qed.

Lemma command_result_Raise command_args cp :
  returncode cp <> 0 -> exists e, command_result command_args cp = Raise e.
Proof.
  intros Hrc. apply Z.eqb_neq in Hrc. unfold command_result. rewrite Hrc.
  destruct (decode (stdout cp)); eauto.
Qed.

(** X1: whatever the tool, the reader and the state are, and however the
    step ends, the temporary file of the loader of the fix-ups and the one of
    the placement step do not exist once the step is over. *)
Theorem temp_files_absent_after_step (r : Run) :
  files (fs (world (load_pos_fixups execute csv_reader r).2))
    !! pos_fixups_filename (ec r) = None /\
  files (fs (world (generate_pos execute csv_reader r).2))
    !! pre_fixup_pos_filename (ec r) = None.
Proof. split; apply try_finally_os_remove_absent. Qed.

(** X2: when the export command of the loader, or of the placement step,
    ends with a non-zero status but has created its output file, the step
    raises exactly what [run_command] raises, the file having been removed and
    nothing else having changed since the command ended. *)
Theorem failure_propagates_when_temp_exists (c : ScriptExecutionContext) (w : World)
    (cp : CompletedProcess) (fs' : FileSystem) (text : string) :
  returncode cp <> 0 ->
  (execute (fixups_export_args c) (fs w) = Exited cp fs' ->
   files fs' !! pos_fixups_filename c = Some text ->
   load_pos_fixups execute csv_reader (mkRun c w)
     = (command_result (fixups_export_args c) cp,
        mkRun c (set_files (delete (pos_fixups_filename c))
                   (after_process (fixups_export_args c) fs' w)))) /\
  (execute (pos_export_args c) (fs w) = Exited cp fs' ->
   files fs' !! pre_fixup_pos_filename c = Some text ->
   generate_pos execute csv_reader (mkRun c w)
     = (command_result (pos_export_args c) cp,
        mkRun c (set_files (delete (pre_fixup_pos_filename c))
                   (after_process (pos_export_args c) fs' w)))).
Proof.
  intros Hrc. split; intros Hexec Hfile.
  - destruct (command_result_Raise (fixups_export_args c) cp Hrc) as [e He].
    unfold load_pos_fixups, bind at 1. cbn [get_ec]. cbv zeta. cbn [ec].
    erewrite (try_finally_os_remove_present _ _ _ (Raise e)
                (mkRun c (after_process (fixups_export_args c) fs' w)));
      [rewrite He; reflexivity| |exact Hfile].
    unfold bind, io. cbn [world ec].
    change (_ :: _) with (fixups_export_args c).
    rewrite (run_command_result _ _ _ _ Hexec), He. reflexivity.
  - destruct (command_result_Raise (pos_export_args c) cp Hrc) as [e He].
    unfold generate_pos, bind at 1. cbn [get_ec]. cbv zeta. cbn [ec].
    erewrite (try_finally_os_remove_present _ _ _ (Raise e)
                (mkRun c (after_process (pos_export_args c) fs' w)));
      [rewrite He; reflexivity| |exact Hfile].
    unfold bind, io. cbn [world ec].
    change (_ :: _) with (pos_export_args c).
    rewrite (run_command_result _ _ _ _ Hexec), He. reflexivity.
Qed.

End TemporaryFiles2.

(** The fix-up export is written to its file before the tool ends with
    status 1 and the output "boom". *)
Lemma failure_propagates_when_temp_exists_witness :
  load_pos_fixups (Sample.write_then_exit Sample.fixups_csv 1 Sample.boom)
    Sample.csv_reader Sample.start
  = (Raise (ScriptError
       "Error executing command kicad-cli sch export bom --fields Reference,PosRotAdjust -o fab/pos-fixups.csv board/board.kicad_sch"
       "boom" 2),
     mkRun Sample.context
       (mkWorld (mkFS ∅ ∅) [fixups_export_args Sample.context] [] [])).
Proof.
  unfold Sample.start.
  rewrite (proj1 (failure_propagates_when_temp_exists
                    (Sample.write_then_exit Sample.fixups_csv 1 Sample.boom)
                    Sample.csv_reader Sample.context Sample.empty_world
                    (mkCP 1 Sample.boom)
                    (mkFS {[ "fab/pos-fixups.csv" := Sample.fixups_csv ]} ∅)
                    Sample.fixups_csv ltac:(discriminate))
                 ltac:(vm_compute; reflexivity) ltac:(vm_compute; reflexivity)).
  vm_compute. reflexivity.
Defined.

(** ** Rows that do not have the expected shape *)

Section OddRows.

Implicit Types fixups : gmap (option string) (gmap string (option string)).
Implicit Types pos_line : list string.

(** X3: a blank line of the placement export, which the reader yields as an
    empty row, raises [IndexError]; and so does a row with fewer than six
    fields whose reference has a fix-up record with a [PosRotAdjust] field,
    even if that field is empty, since the rotation is read or assigned at
    index 5. *)
Theorem fixup_pos_line_short_row fixups :
  fixup_pos_line fixups [] = Raise IndexError /\
  forall pos_line reference fixup adjust,
    pos_line !! 0%nat = Some reference ->
    fixups !! Some reference = Some fixup ->
    fixup !! "PosRotAdjust" = Some adjust ->
    (length pos_line < 6)%nat ->
    fixup_pos_line fixups pos_line = Raise IndexError.
Proof.
  split; [reflexivity|].
  intros pos_line reference fixup adjust H0 Hfix Hadj Hlen.
  unfold fixup_pos_line, list_getitem at 1. rewrite H0. cbn [rbind].
  rewrite Hfix. cbn [rbind].
  rewrite (dict_truthy_lookup _ _ _ Hadj).
  unfold dict_getitem. rewrite Hadj. cbn [rbind].
  destruct (opt_truthy adjust); cbn [rbind].
  - unfold list_setitem. rewrite decide_False by lia. reflexivity.
  - unfold list_getitem. rewrite (lookup_ge_None_2 pos_line 5) by lia. reflexivity.
Qed.

(** X4: a fix-up record whose [PosRotAdjust] is [None], as the reader makes it
    for a line that stops before that column, leaves the exported rotation in
    place; a record that has fields but no [PosRotAdjust] among them makes the
    row raise [KeyError] for that name. *)
Theorem fixup_pos_line_no_adjust fixups pos_line reference fixup :
  pos_line !! 0%nat = Some reference ->
  fixups !! Some reference = Some fixup ->
  (forall rotation,
     pos_line !! 5%nat = Some rotation ->
     fixup !! "PosRotAdjust" = Some None ->
     exists out,
       fixup_pos_line fixups pos_line = Return out /\ out !! 5%nat = Some rotation) /\
  (fixup <> ∅ ->
   fixup !! "PosRotAdjust" = None ->
   fixup_pos_line fixups pos_line = Raise (KeyError "PosRotAdjust")).
Proof.
  intros H0 Hfix. split.
  - intros rotation H5 Hadj.
    destruct pos_line as [|a [|b [|c [|d [|e [|f rest]]]]]]; try discriminate.
    cbn in H0, H5. injection H0 as ->. injection H5 as ->.
    unfold fixup_pos_line. cbn [list_getitem lookup list_lookup rbind].
    rewrite Hfix. cbn [rbind].
    rewrite (dict_truthy_lookup _ _ _ Hadj).
    unfold dict_getitem. rewrite Hadj. cbn.
    eexists. split; reflexivity.
  - intros Hne Hadj.
    unfold fixup_pos_line, list_getitem at 1. rewrite H0. cbn [rbind].
    rewrite Hfix. cbn [rbind].
    unfold dict_truthy. rewrite bool_decide_eq_true_2 by exact Hne.
    unfold dict_getitem. rewrite Hadj. reflexivity.
Qed.

End OddRows.

(** The row [R1,10k] with the record of R1. *)
Lemma fixup_pos_line_short_row_witness :
  fixup_pos_line {[ Some "R1" := Sample.fixup_R1 ]} ["R1"; "10k"] = Raise IndexError.
Proof.
  apply (proj2 (fixup_pos_line_short_row {[ Some "R1" := Sample.fixup_R1 ]})
           ["R1"; "10k"] "R1" Sample.fixup_R1 (Some "90")).
  - reflexivity.
  - vm_compute. reflexivity.
  - vm_compute. reflexivity.
  - cbn. lia.
Defined.

(** The row of R1 with a record read from the line [R1] alone, and with a
    record read under the header [Reference,Rotation]. *)
Lemma fixup_pos_line_no_adjust_witness :
  (exists out,
     fixup_pos_line
       {[ Some "R1" := DictReader_row ["Reference"; "PosRotAdjust"] ["R1"] ]}
       Sample.row_R1 = Return out /\ out !! 5%nat = Some "0") /\
  fixup_pos_line
    {[ Some "R1" := DictReader_row ["Reference"; "Rotation"] ["R1"; "90"] ]}
    Sample.row_R1 = Raise (KeyError "PosRotAdjust").
Proof.
  split.
  - apply (proj1 (fixup_pos_line_no_adjust
                    {[ Some "R1" := DictReader_row ["Reference"; "PosRotAdjust"] ["R1"] ]}
                    Sample.row_R1 "R1"
                    (DictReader_row ["Reference"; "PosRotAdjust"] ["R1"])
                    eq_refl (lookup_singleton_eq _ _))).
    + reflexivity.
    + vm_compute. reflexivity.
  - apply (proj2 (fixup_pos_line_no_adjust
                    {[ Some "R1" := DictReader_row ["Reference"; "Rotation"] ["R1"; "90"] ]}
                    Sample.row_R1 "R1"
                    (DictReader_row ["Reference"; "Rotation"] ["R1"; "90"])
                    eq_refl (lookup_singleton_eq _ _))).
    + intros H. apply (f_equal (fun d => d !! "Reference")) in H.
      vm_compute in H. discriminate H.
    + vm_compute. reflexivity.
Defined.

(** ** What the steps do to the shared dict, the terminal and the processes *)

Lemma same_context_on_context Q `{!PreOrder Q} {A} (m : M Run A) :
  preserves same_context m -> preserves (on_context Q) m.
Proof.
  intros H r. specialize (H r). unfold same_context in H. unfold on_context.
  rewrite H. reflexivity.
Qed.

Lemma pos_fixups_setitem_fixups_kept key value :
  preserves (on_context fixups_kept) (pos_fixups_setitem key value).
Proof.
  intros r. unfold on_context, fixups_kept. cbn. rewrite dom_insert. set_solver.
Qed.

(** Storing a record under the reference it holds. *)
Lemma store_record_keeps_keyed (fixup : gmap string (option string)) :
  preserves (on_context keeps_keyed)
    (do reference <- lift_res (dict_getitem fixup "Reference");
     pos_fixups_setitem reference fixup).
Proof.
  intros r. unfold bind, lift_res, dict_getitem, on_context, keeps_keyed.
  destruct (fixup !! "Reference") as [reference|] eqn:Href; cbn; [|auto].
  intros Hkeyed key record. rewrite lookup_insert.
  case_decide as Hkey.
  - intros [= <-]. rewrite <- Hkey. exact Href.
  - apply Hkeyed.
Qed.

Section SharedState.

Variable execute : list string -> FileSystem -> ProcOutcome.
Variable csv_reader : string -> list (list string).
Variable glob_glob : string -> FileSystem -> list string.

(** A relation on contexts that the loader respects is respected by all. *)
Lemma steps_on_context Q `{!PreOrder Q} :
  preserves (on_context Q) (load_pos_fixups execute csv_reader) ->
  Forall (fun s => preserves (on_context Q) (step_fn s)) (steps execute csv_reader glob_glob).
Proof.
  intros Hload. unfold steps, script_step.
  repeat apply List.Forall_cons; try apply List.Forall_nil; cbn [step_fn].
  - apply same_context_on_context; [apply _|apply generate_gerbers_same_context].
  - apply same_context_on_context; [apply _|apply generate_drill_same_context].
  - apply same_context_on_context; [apply _|apply archive_pcb_same_context].
  - apply same_context_on_context; [apply _|apply generate_bom_same_context].
  - exact Hload.
  - apply same_context_on_context; [apply _|apply generate_pos_same_context].
Qed.

Lemma load_pos_fixups_fixups_kept :
  preserves (on_context fixups_kept) (load_pos_fixups execute csv_reader).
Proof.
  unfold load_pos_fixups. walk_preserves;
    first [ apply pos_fixups_setitem_fixups_kept | apply io_on_context; apply _ ].
Qed.

Lemma load_pos_fixups_keeps_keyed :
  preserves (on_context keeps_keyed) (load_pos_fixups execute csv_reader).
Proof.
  unfold load_pos_fixups.
  apply preserves_bind; [apply _|apply get_ec_preserves; apply _|intros c].
  apply preserves_try_finally; [apply _| |apply io_on_context; apply _].
  apply preserves_bind; [apply _|apply io_on_context; apply _|intros _].
  apply preserves_bind; [apply _|apply io_on_context; apply _|intros text].
  apply preserves_for_each; [apply _|intros fixup].
  apply store_record_keeps_keyed.
Qed.

(** X5: no step ever takes a record out of the shared dict: however a step
    or the whole sequence of steps ends, every reference that had a record
    before still has one afterwards. *)
Theorem fixups_never_removed :
  Forall (fun s => forall r, dom (pos_fixups (ec r)) ⊆ dom (pos_fixups (ec (step_fn s r).2)))
         (steps execute csv_reader glob_glob) /\
  forall r, dom (pos_fixups (ec r)) ⊆ dom (pos_fixups (ec (run_steps (steps execute csv_reader glob_glob) r).2)).
Proof.
  split.
  - apply (steps_on_context fixups_kept load_pos_fixups_fixups_kept).
  - apply (run_steps_preserves (on_context fixups_kept)).
    + intros title. apply io_on_context. apply _.
    + apply (steps_on_context fixups_kept load_pos_fixups_fixups_kept).
Qed.

(** X6: the loader stores each record under the reference the record itself
    holds.  So if the dict is such when the steps start, as the empty dict of
    a fresh run is, it is such when they end, however they end; and every
    record in it counts as true, so that the test [if fixup] of the placement
    step never fails on a reference that is there. *)
Theorem fixups_keyed_by_reference (r : Run) :
  keyed_by_reference (pos_fixups (ec r)) ->
  keyed_by_reference (pos_fixups (ec (run_steps (steps execute csv_reader glob_glob) r).2)) /\
  forall key record,
    pos_fixups (ec (run_steps (steps execute csv_reader glob_glob) r).2) !! key = Some record ->
    dict_truthy record = true.
Proof.
  intros Hkeyed.
  assert (Hafter : keyed_by_reference (pos_fixups (ec (run_steps (steps execute csv_reader glob_glob) r).2))).
  { revert Hkeyed. apply (run_steps_preserves (on_context keeps_keyed)).
    - intros title. apply io_on_context. apply _.
    - apply (steps_on_context keeps_keyed load_pos_fixups_keeps_keyed). }
  split; [exact Hafter|].
  intros key record Hrecord. eapply dict_truthy_lookup, Hafter, Hrecord.
Qed.

Lemma run_command_terminal command_args w :
  terminal (run_command execute command_args w).2 = terminal w.
Proof.
  unfold run_command, bind, subprocess_run, lift_res, raise, ret.
  destruct (execute command_args (fs w)) as [|cp fs']; cbn; [reflexivity|].
  destruct (returncode cp =? 0)%Z; cbn; [reflexivity|].
  destruct (decode (stdout cp)); reflexivity.
Qed.

Lemma open_read_same filename w : (open_read filename w).2 = w.
Proof. unfold open_read. destruct (files (fs w) !! filename); reflexivity. Qed.

Lemma os_remove_terminal filename w : terminal (os_remove filename w).2 = terminal w.
Proof. unfold os_remove. destruct (files (fs w) !! filename); reflexivity. Qed.

Lemma os_remove_invocations filename w :
  invocations (os_remove filename w).2 = invocations w.
Proof. unfold os_remove. destruct (files (fs w) !! filename); reflexivity. Qed.

Ltac walk_terminal :=
  walk_preserves;
  first [ apply pos_fixups_setitem_on_world; apply _
        | apply io_on_world; intros ?;
          first [ apply run_command_terminal
                | rewrite open_read_same; reflexivity
                | apply os_remove_terminal
                | reflexivity ] ].

(** The steps print nothing. *)
Lemma steps_same_terminal :
  Forall (fun s => preserves (on_world same_terminal) (step_fn s)) (steps execute csv_reader glob_glob).
Proof.
  unfold steps, script_step.
  repeat apply List.Forall_cons; try apply List.Forall_nil; cbn [step_fn].
  - unfold generate_gerbers. walk_terminal.
  - unfold generate_drill. walk_terminal.
  - unfold archive_pcb. walk_terminal.
  - unfold generate_bom. walk_terminal.
  - unfold load_pos_fixups. walk_terminal.
  - unfold generate_pos. walk_terminal.
Qed.

(** What comes after the command of a step starts no process. *)
Ltac walk_invocations :=
  walk_preserves;
  first [ apply pos_fixups_setitem_on_world; apply _
        | apply io_on_world; intros ?;
          first [ rewrite open_read_same; reflexivity
                | apply os_remove_invocations
                | reflexivity ] ].

Lemma io_run_command_invocations command_args r :
  invocations (world (io (run_command execute command_args) r).2)
    = (invocations (world r) ++ [command_args])%list.
Proof.
  unfold io. pose proof (run_command_invocations execute command_args (world r)) as H.
  destruct (run_command execute command_args (world r)). exact H.
Qed.

Lemma command_then_invocations {A} command_args (k : unit -> M Run A) r :
  (forall u, preserves (on_world same_invocations) (k u)) ->
  invocations (world (bind (io (run_command execute command_args)) k r).2)
    = (invocations (world r) ++ [command_args])%list.
Proof.
  intros Hk. unfold bind.
  pose proof (io_run_command_invocations command_args r) as H.
  destruct (io (run_command execute command_args) r) as [[[]|e] r1]; cbn [snd] in *.
  - rewrite <- H. apply (Hk tt r1).
  - exact H.
Qed.

Lemma try_finally_invocations {A} (body : M Run A) (cleanup : M Run unit) r :
  preserves (on_world same_invocations) cleanup ->
  invocations (world (try_finally body cleanup r).2) = invocations (world (body r).2).
Proof.
  intros Hc. unfold try_finally. destruct (body r) as [x r1].
  specialize (Hc r1). destruct (cleanup r1) as [[[]|e] r2]; exact Hc.
Qed.

Lemma step_programs :
  starts_one_process kicad_path (generate_gerbers execute) /\
  starts_one_process kicad_path (generate_drill execute) /\
  starts_one_process (fun _ => "zip") (archive_pcb execute glob_glob) /\
  starts_one_process kicad_path (generate_bom execute) /\
  starts_one_process kicad_path (load_pos_fixups execute csv_reader) /\
  starts_one_process kicad_path (generate_pos execute csv_reader).
Proof.
  unfold starts_one_process.
  split; [|split; [|split; [|split; [|split]]]]; intros r.
  - eexists. split; [apply io_run_command_invocations|reflexivity].
  - eexists. split; [apply io_run_command_invocations|reflexivity].
  - exists (["zip"; "-o"; output (ec r) +:+ "/" +:+ project_base (ec r)
                          +:+ "-gerbers.zip"]
            ++ glob_glob (output (ec r) +:+ "/*.g*") (fs (world r))
            ++ glob_glob (output (ec r) +:+ "/*.drl") (fs (world r)))%list.
    split; [|reflexivity].
    unfold archive_pcb, bind. cbn [get_ec]. unfold io.
    pose proof (run_command_invocations execute
                  (["zip"; "-o"; output (ec r) +:+ "/" +:+ project_base (ec r)
                                 +:+ "-gerbers.zip"]
                   ++ glob_glob (output (ec r) +:+ "/*.g*") (fs (world r))
                   ++ glob_glob (output (ec r) +:+ "/*.drl") (fs (world r)))
                  (world r)) as H.
    destruct (run_command execute _ (world r)). exact H.
  - eexists. split; [apply io_run_command_invocations|reflexivity].
  - exists (fixups_export_args (ec r)). split; [|reflexivity].
    unfold load_pos_fixups, bind at 1. cbn [get_ec]. cbv zeta.
    rewrite try_finally_invocations by walk_invocations.
    apply command_then_invocations. intros _. walk_invocations.
  - exists (pos_export_args (ec r)). split; [|reflexivity].
    unfold generate_pos, bind at 1. cbn [get_ec]. cbv zeta.
    rewrite try_finally_invocations by walk_invocations.
    apply command_then_invocations. intros _. walk_invocations.
Qed.

Lemma steps_invocations :
  Forall (fun s =>
            forall r, exists command_args,
              invocations (world (step_fn s r).2)
                = (invocations (world r) ++ [command_args])%list /\
              (head command_args = Some (kicad_path (ec r)) \/
               head command_args = Some "zip"))
         (steps execute csv_reader glob_glob).
Proof.
  destruct step_programs as (H1 & H2 & H3 & H4 & H5 & H6).
  unfold steps, script_step.
  repeat apply List.Forall_cons; try apply List.Forall_nil; cbn [step_fn]; intros r;
    [ destruct (H1 r) as (command_args & H & Hhead)
    | destruct (H2 r) as (command_args & H & Hhead)
    | destruct (H3 r) as (command_args & H & Hhead)
    | destruct (H4 r) as (command_args & H & Hhead)
    | destruct (H5 r) as (command_args & H & Hhead)
    | destruct (H6 r) as (command_args & H & Hhead) ];
    exists command_args; (split; [exact H|]); auto.
Qed.

(** X7: every step asks exactly once for an external program to be run,
    however the step ends.  The steps are the six functions in the order
    given; the archive step asks for [zip], and each of the other five for
    the CAD tool of the context. *)
Theorem steps_start_one_process :
  map step_fn (steps execute csv_reader glob_glob)
  = [generate_gerbers execute; generate_drill execute; archive_pcb execute glob_glob;
     generate_bom execute; load_pos_fixups execute csv_reader;
     generate_pos execute csv_reader] /\
  starts_one_process kicad_path (generate_gerbers execute) /\
  starts_one_process kicad_path (generate_drill execute) /\
  starts_one_process (fun _ => "zip") (archive_pcb execute glob_glob) /\
  starts_one_process kicad_path (generate_bom execute) /\
  starts_one_process kicad_path (load_pos_fixups execute csv_reader) /\
  starts_one_process kicad_path (generate_pos execute csv_reader).
Proof. split; [reflexivity|exact step_programs]. Qed.

End SharedState.

(** The steps run from the sample start, whose dict is empty. *)
Lemma fixups_keyed_by_reference_witness :
  keyed_by_reference
    (pos_fixups (ec (run_steps (steps Sample.tool_ok Sample.csv_reader Sample.glob_glob)
                       Sample.start).2)) /\
  forall key record,
    pos_fixups (ec (run_steps (steps Sample.tool_ok Sample.csv_reader Sample.glob_glob)
                      Sample.start).2) !! key = Some record ->
    dict_truthy record = true.
Proof.
  apply (fixups_keyed_by_reference Sample.tool_ok Sample.csv_reader Sample.glob_glob
           Sample.start).
  intros key record H. cbn in H. rewrite lookup_empty in H. discriminate H.
Defined.

(** ** The loader of the fix-ups *)

Section Inversion3.

Context {S : Type}.

Lemma for_each_app {A} (l1 l2 : list A) (body : A -> M S unit) s :
  for_each (l1 ++ l2) body s =
    match for_each l1 body s with
    | (Return _, s1) => for_each l2 body s1
    | (Raise e, s1) => (Raise e, s1)
    end.
Proof.
  revert s. induction l1 as [|x l1 IH]; intros s; [reflexivity|].
  cbn [app for_each]. unfold bind.
  destruct (body x s) as [[[]|e] s1]; [apply IH|reflexivity].
Qed.

End Inversion3.

Lemma with_pos_fixups_same (r : Run) :
  mkRun (with_pos_fixups (ec r) (pos_fixups (ec r))) (world r) = r.
Proof. destruct r as [[] w]. reflexivity. Qed.

(** Storing records that all have a reference: for each reference the last
    record wins, and references that do not occur keep what they had. *)
Lemma store_records_Return (records : list (gmap string (option string))) (r : Run) :
  Forall (fun record => is_Some (record !! "Reference")) records ->
  exists d',
    for_each records (fun fixup =>
      do reference <- lift_res (dict_getitem fixup "Reference");
      pos_fixups_setitem reference fixup) r
    = (Return tt, mkRun (with_pos_fixups (ec r) d') (world r)) /\
    forall key,
      d' !! key = match last_record key records with
                  | Some record => Some record
                  | None => pos_fixups (ec r) !! key
                  end.
Proof.
  intros Hall. revert r. induction Hall as [|record records [k0 Hk0] Hall IH]; intros r.
  - exists (pos_fixups (ec r)). split; [|reflexivity].
    cbn. unfold ret. rewrite with_pos_fixups_same. reflexivity.
  - destruct (IH (mkRun (with_pos_fixups (ec r) (<[k0:=record]> (pos_fixups (ec r))))
                        (world r))) as (d' & Hrun & Hlookup).
    exists d'. split.
    + cbn [for_each]. unfold bind at 1. unfold bind at 1.
      unfold lift_res, dict_getitem. rewrite Hk0.
      unfold pos_fixups_setitem at 1. exact Hrun.
    + intros key. rewrite Hlookup. unfold last_record. rewrite filter_cons.
      cbn [ec pos_fixups with_pos_fixups].
      case_decide as Hkey.
      * rewrite last_cons.
        destruct (last (filter _ records)); [reflexivity|].
        assert (k0 = key) as -> by congruence. apply lookup_insert_eq.
      * destruct (last (filter _ records)); [reflexivity|].
        apply lookup_insert_ne. congruence.
Qed.

Section Loader.

Variable execute : list string -> FileSystem -> ProcOutcome.
Variable csv_reader : string -> list (list string).

(** The loader up to its loop, when the export has worked. *)
Lemma load_pos_fixups_exported c w cp fs1 text x r1 :
  execute (fixups_export_args c) (fs w) = Exited cp fs1 ->
  returncode cp = 0 ->
  files fs1 !! pos_fixups_filename c = Some text ->
  for_each (DictReader csv_reader text) (fun fixup =>
    do reference <- lift_res (dict_getitem fixup "Reference");
    pos_fixups_setitem reference fixup)
    (mkRun c (after_process (fixups_export_args c) fs1 w)) = (x, r1) ->
  files (fs (world r1)) !! pos_fixups_filename c = Some text ->
  load_pos_fixups execute csv_reader (mkRun c w)
    = (x, mkRun (ec r1) (set_files (delete (pos_fixups_filename c)) (world r1))).
Proof.
  intros Hexec Hrc Htext Hloop Hfile.
  unfold load_pos_fixups, bind at 1. cbn [get_ec]. cbv zeta. cbn [ec].
  apply (try_finally_os_remove_present _ _ _ _ _ text); [|exact Hfile].
  unfold bind at 1, io at 1. cbn [world ec].
  change (_ :: _) with (fixups_export_args c).
  rewrite (run_command_result _ _ _ _ _ Hexec). unfold command_result.
  rewrite Hrc. cbn [Z.eqb].
  unfold bind at 1, io at 1, open_read. cbn [world ec fs after_process].
  unfold pos_fixups_filename in Htext. rewrite Htext. exact Hloop.
Qed.

(** X8: when the export has worked and every record read from it has a
    [Reference] field, the loader returns; afterwards a reference that occurs
    in the export has the last record read for it, a reference that does not
    occur has what it had before, and the world is as the tool left it but
    for the temporary file, which is gone. *)
Theorem load_pos_fixups_last_record_wins (c : ScriptExecutionContext) (w : World)
    (cp : CompletedProcess) (fs1 : FileSystem) (text : string) :
  execute (fixups_export_args c) (fs w) = Exited cp fs1 ->
  returncode cp = 0 ->
  files fs1 !! pos_fixups_filename c = Some text ->
  Forall (fun record => is_Some (record !! "Reference")) (DictReader csv_reader text) ->
  exists d',
    load_pos_fixups execute csv_reader (mkRun c w)
    = (Return tt,
       mkRun (with_pos_fixups c d')
             (set_files (delete (pos_fixups_filename c))
                (after_process (fixups_export_args c) fs1 w))) /\
    forall key,
      d' !! key = match last_record key (DictReader csv_reader text) with
                  | Some record => Some record
                  | None => pos_fixups c !! key
                  end.
Proof.
  intros Hexec Hrc Htext Hall.
  destruct (store_records_Return _
              (mkRun c (after_process (fixups_export_args c) fs1 w)) Hall)
    as (d' & Hloop & Hlookup).
  exists d'. split; [|exact Hlookup].
  rewrite (load_pos_fixups_exported _ _ _ _ _ _ _ Hexec Hrc Htext Hloop); [reflexivity|].
  exact Htext.
Qed.

(** X9: when the export has worked but some record read from it has no
    [Reference] field, as under a header that does not name that column, the
    loader raises [KeyError] for that name at the first such record; the
    records before it have been stored and stay stored, and the temporary
    file is gone. *)
Theorem load_pos_fixups_record_without_reference (c : ScriptExecutionContext) (w : World)
    (cp : CompletedProcess) (fs1 : FileSystem) (text : string)
    (before after : list (gmap string (option string)))
    (record : gmap string (option string)) :
  execute (fixups_export_args c) (fs w) = Exited cp fs1 ->
  returncode cp = 0 ->
  files fs1 !! pos_fixups_filename c = Some text ->
  DictReader csv_reader text = (before ++ record :: after)%list ->
  Forall (fun record => is_Some (record !! "Reference")) before ->
  record !! "Reference" = None ->
  exists d',
    load_pos_fixups execute csv_reader (mkRun c w)
    = (Raise (KeyError "Reference"),
       mkRun (with_pos_fixups c d')
             (set_files (delete (pos_fixups_filename c))
                (after_process (fixups_export_args c) fs1 w))) /\
    forall key,
      d' !! key = match last_record key before with
                  | Some record => Some record
                  | None => pos_fixups c !! key
                  end.
Proof.
  intros Hexec Hrc Htext Hrecords Hall Hnone.
  destruct (store_records_Return _
              (mkRun c (after_process (fixups_export_args c) fs1 w)) Hall)
    as (d' & Hloop & Hlookup).
  exists d'. split; [|exact Hlookup].
  assert (Hloop' :
    for_each (DictReader csv_reader text) (fun fixup =>
      do reference <- lift_res (dict_getitem fixup "Reference");
      pos_fixups_setitem reference fixup)
      (mkRun c (after_process (fixups_export_args c) fs1 w))
    = (Raise (KeyError "Reference"),
       mkRun (with_pos_fixups c d') (after_process (fixups_export_args c) fs1 w))).
  { rewrite Hrecords, for_each_app, Hloop. cbn [for_each]. unfold bind at 1. unfold bind at 1.
    unfold lift_res, dict_getitem. rewrite Hnone. reflexivity. }
  rewrite (load_pos_fixups_exported _ _ _ _ _ _ _ Hexec Hrc Htext Hloop'); [reflexivity|].
  exact Htext.
Qed.

End Loader.

(** The export names R1 twice, with 90 and then with 270. *)
Lemma load_pos_fixups_last_record_wins_witness :
  exists d',
    load_pos_fixups (Sample.write_then_exit Sample.fixups_csv_twice 0 [])
      Sample.csv_reader Sample.start
    = (Return tt,
       mkRun (with_pos_fixups Sample.context d')
             (mkWorld (mkFS ∅ ∅) [fixups_export_args Sample.context] [] [])) /\
    d' !! Some "R1"
      = Some (DictReader_row ["Reference"; "PosRotAdjust"] ["R1"; "270"]) /\
    d' !! Some "C2" = None.
Proof.
  destruct (load_pos_fixups_last_record_wins
              (Sample.write_then_exit Sample.fixups_csv_twice 0 [])
              Sample.csv_reader Sample.context Sample.empty_world
              (mkCP 0 [])
              (mkFS {[ "fab/pos-fixups.csv" := Sample.fixups_csv_twice ]} ∅)
              Sample.fixups_csv_twice)
    as (d' & Hrun & Hlookup).
  - vm_compute. reflexivity.
  - reflexivity.
  - vm_compute. reflexivity.
  - vm_compute. repeat constructor; eexists; reflexivity.
  - exists d'. split; [|split].
    + unfold Sample.start. rewrite Hrun. vm_compute. reflexivity.
    + rewrite Hlookup. vm_compute. reflexivity.
    + rewrite Hlookup. vm_compute. reflexivity.
Defined.

(** The header of the export is [Designator,PosRotAdjust]. *)
Lemma load_pos_fixups_record_without_reference_witness :
  (load_pos_fixups (Sample.write_then_exit Sample.fixups_csv_no_reference 0 [])
     Sample.csv_reader Sample.start).1
  = Raise (KeyError "Reference").
Proof.
  destruct (load_pos_fixups_record_without_reference
              (Sample.write_then_exit Sample.fixups_csv_no_reference 0 [])
              Sample.csv_reader Sample.context Sample.empty_world
              (mkCP 0 [])
              (mkFS {[ "fab/pos-fixups.csv" := Sample.fixups_csv_no_reference ]} ∅)
              Sample.fixups_csv_no_reference
              [] []
              (DictReader_row ["Designator"; "PosRotAdjust"] ["R1"; "90"]))
    as (d' & Hrun & _).
  - vm_compute. reflexivity.
  - reflexivity.
  - vm_compute. reflexivity.
  - vm_compute. reflexivity.
  - constructor.
  - vm_compute. reflexivity.
  - unfold Sample.start. rewrite Hrun. reflexivity.
Defined.

(** ** The placement step on every path *)

(** The loop of [generate_pos], however it ends: the lines of the rows that
    went through are appended to the file, in order; the loop returns when
    all rows went through and otherwise raises what the first row that did
    not go through raises.  No other file changes. *)
Lemma write_rows_run (pos_file : string) (rows : list (list string)) r x r' text :
  files (fs (world r)) !! pos_file = Some text ->
  for_each rows (fun pos_line =>
    do ec <- get_ec;
    do pos_line <- lift_res (fixup_pos_line (pos_fixups ec) pos_line);
    io (file_write pos_file (join "," pos_line)) ;;
    io (file_write pos_file nl)) r = (x, r') ->
  exists n outs,
    Forall2 (fun row out => fixup_pos_line (pos_fixups (ec r)) row = Return out)
            (take n rows) outs /\
    ec r' = ec r /\
    files (fs (world r')) !! pos_file = Some (text +:+ unlines (join "," <$> outs)) /\
    (forall p, p <> pos_file -> files (fs (world r')) !! p = files (fs (world r)) !! p) /\
    ((x = Return tt /\ n = length rows) \/
     (exists row e,
        rows !! n = Some row /\
        fixup_pos_line (pos_fixups (ec r)) row = Raise e /\ x = Raise e)).
Proof.
  revert r text. induction rows as [|row rows IH]; intros r text Htext Hrun.
  - injection Hrun as <- <-. exists 0%nat, []. split; [constructor|]. split; [reflexivity|].
    split; [cbn; rewrite Htext, append_empty_r; reflexivity|]. split; [reflexivity|].
    left. split; reflexivity.
  - cbn [for_each] in Hrun. unfold bind at 1 in Hrun. unfold bind at 1 in Hrun.
    cbn [get_ec] in Hrun. unfold bind at 1 in Hrun. unfold lift_res at 1 in Hrun.
    destruct (fixup_pos_line (pos_fixups (ec r)) row) as [out|e] eqn:Hrow.
    + unfold bind at 1, io at 1, io at 1 in Hrun. cbn [file_write world ec] in Hrun.
      apply (IH _ ((text +:+ join "," out) +:+ nl)) in Hrun
        as (n & outs & Houts & Hec & Hfile & Hothers & Hend).
      * exists (S n), (out :: outs). cbn [ec] in *.
        split; [constructor; assumption|]. split; [exact Hec|].
        split; [rewrite Hfile; cbn; rewrite !append_assoc; reflexivity|].
        split.
        { intros p Hp. rewrite (Hothers p Hp). cbn.
          rewrite !lookup_alter_ne by congruence. reflexivity. }
        destruct Hend as [[-> ->]|(row' & e & Hn & Hr & ->)].
        { left. split; reflexivity. }
        right. exists row', e. auto.
      * cbn. rewrite !lookup_alter_eq, Htext. reflexivity.
    + injection Hrun as <- <-. exists 0%nat, []. split; [constructor|].
      split; [reflexivity|].
      split; [cbn; rewrite Htext, append_empty_r; reflexivity|]. split; [reflexivity|].
      right. exists row, e. auto.
Qed.

Section Placement.

Variable execute : list string -> FileSystem -> ProcOutcome.
Variable csv_reader : string -> list (list string).

(** The placement step up to the header row, when the export has worked. *)
Lemma generate_pos_exported c w cp fs1 text :
  execute (pos_export_args c) (fs w) = Exited cp fs1 ->
  returncode cp = 0 ->
  files fs1 !! pre_fixup_pos_filename c = Some text ->
  generate_pos execute csv_reader (mkRun c w)
  = try_finally
      (do header_and_rest <- lift_res (next (csv_reader text));
       let pre_fixup_pos_reader := header_and_rest.2 in
       io (open_write (pos_filename c)) ;;
       io (file_write (pos_filename c) pos_header) ;;
       io (file_write (pos_filename c) nl) ;;
       for_each pre_fixup_pos_reader (fun pos_line =>
         do ec <- get_ec;
         do pos_line <- lift_res (fixup_pos_line (pos_fixups ec) pos_line);
         io (file_write (pos_filename c) (join "," pos_line)) ;;
         io (file_write (pos_filename c) nl)))
      (io (os_remove (pre_fixup_pos_filename c)))
      (mkRun c (after_process (pos_export_args c) fs1 w)).
Proof.
  intros Hexec Hrc Htext.
  unfold generate_pos, bind at 1. cbn [get_ec]. cbv zeta. cbn [ec].
  unfold try_finally. f_equal.
  unfold bind at 1, io at 1. cbn [world ec].
  change (_ :: _) with (pos_export_args c).
  rewrite (run_command_result _ _ _ _ _ Hexec). unfold command_result.
  rewrite Hrc. cbn [Z.eqb].
  unfold bind at 1, io at 1, open_read. cbn [world ec fs after_process].
  unfold pre_fixup_pos_filename in Htext. rewrite Htext. reflexivity.
Qed.

(** X10: when the placement export has worked but its file has no line at
    all, not even a header, the step raises [StopIteration]; the world is as
    the tool left it but for the temporary file, so no final file has been
    opened or written. *)
Theorem generate_pos_empty_export (c : ScriptExecutionContext) (w : World)
    (cp : CompletedProcess) (fs1 : FileSystem) (text : string) :
  execute (pos_export_args c) (fs w) = Exited cp fs1 ->
  returncode cp = 0 ->
  files fs1 !! pre_fixup_pos_filename c = Some text ->
  csv_reader text = [] ->
  generate_pos execute csv_reader (mkRun c w)
  = (Raise StopIteration,
     mkRun c (set_files (delete (pre_fixup_pos_filename c))
                (after_process (pos_export_args c) fs1 w))).
Proof.
  intros Hexec Hrc Htext Hcsv.
  rewrite (generate_pos_exported _ _ _ _ _ Hexec Hrc Htext).
  rewrite (try_finally_os_remove_present _ _ _ (Raise StopIteration)
             (mkRun c (after_process (pos_export_args c) fs1 w)) text);
    [reflexivity| |exact Htext].
  unfold bind, lift_res. rewrite Hcsv. reflexivity.
Qed.

(** X11: when the placement export has worked and has a header row, the
    final file is there after the step, however the step ends: it holds the
    header line and then the lines of the rows that went through, in order.
    The step returns when all rows went through; otherwise it raises what the
    first row that did not go through raises and the file stays, cut short.
    (The project is not called like the temporary file.) *)
Theorem generate_pos_partial_output (c : ScriptExecutionContext) (w : World)
    (cp : CompletedProcess) (fs1 : FileSystem) (text : string)
    (header : list string) (rows : list (list string)) :
  execute (pos_export_args c) (fs w) = Exited cp fs1 ->
  returncode cp = 0 ->
  files fs1 !! pre_fixup_pos_filename c = Some text ->
  csv_reader text = header :: rows ->
  project_base c <> "pre-fixup-pos" ->
  exists n outs,
    Forall2 (fun row out => fixup_pos_line (pos_fixups c) row = Return out)
            (take n rows) outs /\
    files (fs (world (generate_pos execute csv_reader (mkRun c w)).2)) !! pos_filename c
      = Some ("Designator,Val,Package,Mid X,Mid Y,Rotation,Layer" +:+ nl
              +:+ unlines (join "," <$> outs)) /\
    (((generate_pos execute csv_reader (mkRun c w)).1 = Return tt /\ n = length rows) \/
     (exists row e,
        rows !! n = Some row /\
        fixup_pos_line (pos_fixups c) row = Raise e /\
        (generate_pos execute csv_reader (mkRun c w)).1 = Raise e)).
Proof.
  intros Hexec Hrc Htext Hcsv Hbase.
  pose proof (pos_filename_ne c Hbase) as Hne.
  rewrite (generate_pos_exported _ _ _ _ _ Hexec Hrc Htext).
  destruct (for_each rows (fun pos_line =>
              do ec <- get_ec;
              do pos_line <- lift_res (fixup_pos_line (pos_fixups ec) pos_line);
              io (file_write (pos_filename c) (join "," pos_line)) ;;
              io (file_write (pos_filename c) nl))
              (mkRun c
                 (set_files (alter (fun t => t +:+ nl) (pos_filename c))
                    (set_files (alter (fun t => t +:+ pos_header) (pos_filename c))
                       (set_files (insert (pos_filename c) EmptyString)
                          (after_process (pos_export_args c) fs1 w))))))
    as [x r1] eqn:Hloop.
  pose proof Hloop as Hrun.
  apply (write_rows_run _ _ _ _ _
           ("Designator,Val,Package,Mid X,Mid Y,Rotation,Layer" +:+ nl))
    in Hrun as (n & outs & Houts & Hec & Hfile & Hothers & Hend).
  2:{ cbn. rewrite !lookup_alter_eq, lookup_insert_eq. reflexivity. }
  cbn [ec] in *.
  assert (Htmp : files (fs (world r1)) !! pre_fixup_pos_filename c = Some text).
  { rewrite (Hothers _ Hne). cbn.
    rewrite !lookup_alter_ne, lookup_insert_ne by congruence. exact Htext. }
  rewrite (try_finally_os_remove_present _ _ _ x r1 text); [| |exact Htmp].
  - exists n, outs. split; [exact Houts|]. split.
    + cbn. rewrite lookup_delete_ne by exact Hne. exact Hfile.
    + exact Hend.
  - unfold bind at 1, lift_res. rewrite Hcsv. cbn [next snd].
    unfold bind at 1, io at 1. cbn [open_write world ec].
    unfold bind at 1, io at 1. cbn [file_write world ec].
    unfold bind at 1, io at 1. cbn [file_write world ec].
    exact Hloop.
Qed.

End Placement.

(** The placement export is an empty file. *)
Lemma generate_pos_empty_export_witness :
  generate_pos Sample.tool_empty_pos Sample.csv_reader Sample.start
  = (Raise StopIteration,
     mkRun Sample.context
       (mkWorld (mkFS ∅ ∅) [pos_export_args Sample.context] [] [])).
Proof.
  unfold Sample.start.
  rewrite (generate_pos_empty_export Sample.tool_empty_pos Sample.csv_reader
             Sample.context Sample.empty_world (mkCP 0 [])
             (mkFS {[ "fab/pre-fixup-pos.pos" := EmptyString ]} ∅) EmptyString).
  - vm_compute. reflexivity.
  - vm_compute. reflexivity.
  - reflexivity.
  - vm_compute. reflexivity.
  - reflexivity.
Defined.

(** The export has the rows of R1 and C2, the fix-ups a record for R1 only:
    the row of R1 goes through, the row of C2 raises. *)
Lemma generate_pos_partial_output_witness :
  exists n outs,
    Forall2 (fun row out =>
               fixup_pos_line (pos_fixups Sample.context_R1) row = Return out)
            (take n [Sample.row_R1; Sample.row_C2]) outs /\
    files (fs (world (generate_pos Sample.tool_missing Sample.csv_reader
                        (mkRun Sample.context_R1 Sample.empty_world)).2))
      !! pos_filename Sample.context_R1
      = Some ("Designator,Val,Package,Mid X,Mid Y,Rotation,Layer" +:+ nl
              +:+ unlines (join "," <$> outs)) /\
    (((generate_pos Sample.tool_missing Sample.csv_reader
         (mkRun Sample.context_R1 Sample.empty_world)).1 = Return tt /\
      n = length [Sample.row_R1; Sample.row_C2]) \/
     (exists row e,
        [Sample.row_R1; Sample.row_C2] !! n = Some row /\
        fixup_pos_line (pos_fixups Sample.context_R1) row = Raise e /\
        (generate_pos Sample.tool_missing Sample.csv_reader
           (mkRun Sample.context_R1 Sample.empty_world)).1 = Raise e)).
Proof.
  apply (generate_pos_partial_output Sample.tool_missing Sample.csv_reader
           Sample.context_R1 Sample.empty_world (mkCP 0 [])
           (mkFS {[ "fab/pre-fixup-pos.pos" := Sample.pos_csv ]} ∅) Sample.pos_csv
           ["Ref"; "Val"; "Package"; "PosX"; "PosY"; "Rot"; "Side"]).
  - vm_compute. reflexivity.
  - reflexivity.
  - vm_compute. reflexivity.
  - vm_compute. reflexivity.
  - discriminate.
Defined.

(** ** Before the steps: the output directory and the context *)

Lemma probe_kicad_path_run (w : World) :
  probe_kicad_path w = (Return (chosen_kicad_path None w), w).
Proof.
  unfold probe_kicad_path, chosen_kicad_path. rewrite filter_cons, filter_nil.
  destruct (decide (is_Some (files (fs w)
              !! "/Applications/KiCad/KiCad.app/Contents/MacOS/kicad-cli"))) as [H|H].
  - rewrite (bool_decide_eq_true_2 _ H). reflexivity.
  - rewrite (bool_decide_eq_false_2 _ H). reflexivity.
Qed.



Section Setup.

Variables (project : string) (schema pcb : option string) (output : string).
Variables (force : bool) (kicad_path : option string).

Local Abbreviation setup :=
  (generate_fab_setup project schema pcb output force kicad_path).
Local Abbreviation context_of := (fresh_context project schema pcb output kicad_path).

(** The set-up, laid out: the error about the directory in the way, or else
    the directory removed if need be, created, and the line printed. *)
Lemma setup_run (w : World) :
  setup w =
    if bool_decide (output ∈ dirs (fs w)) && negb force
    then (Raise (output_exists_error output), w)
    else
      match os_makedirs output
              (if bool_decide (output ∈ dirs (fs w)) then (shutil_rmtree output w).2 else w)
      with
      | (Return _, w1) => (Return (context_of w), (click_echo (using_line (context_of w)) w1).2)
      | (Raise e, w1) => (Raise e, w1)
      end.
Proof.
  unfold generate_fab_setup.
  assert (Hkp : (if opt_truthy kicad_path then ret (default EmptyString kicad_path)
                 else probe_kicad_path) w
                = (Return (chosen_kicad_path kicad_path w), w)).
  { destruct kicad_path as [[|a s]|]; cbn [opt_truthy str_truthy];
      try apply probe_kicad_path_run. reflexivity. }
  unfold bind at 1. rewrite Hkp.
  unfold bind at 1, path_isdir at 1.
  assert (Hctx : mkEC (chosen_kicad_path kicad_path w) output
                   (path_join project
                      (if opt_truthy pcb then default EmptyString pcb
                       else basename project +:+ ".kicad_pcb"))
                   (path_join project
                      (if opt_truthy schema then default EmptyString schema
                       else basename project +:+ ".kicad_sch"))
                   (basename project) ∅ = context_of w).
  { unfold fresh_context, chosen_file.
    destruct pcb as [[|a s]|], schema as [[|a' s']|]; reflexivity. }
  destruct (bool_decide (output ∈ dirs (fs w))); cbn [andb].
  - destruct force; cbn [negb]; [|reflexivity].
    unfold bind at 1. cbn [shutil_rmtree]. unfold bind at 1.
    destruct (os_makedirs output _) as [[[]|e] w1]; [|reflexivity].
    unfold bind at 1. cbn [click_echo]. unfold ret. rewrite <- Hctx. reflexivity.
  - unfold bind at 1. cbn [ret]. unfold bind at 1.
    destruct (os_makedirs output w) as [[[]|e] w1]; [|reflexivity].
    unfold bind at 1. cbn [click_echo]. unfold ret. rewrite <- Hctx. reflexivity.
Qed.

Lemma setup_Return (w : World) (c : ScriptExecutionContext) (w1 : World) :
  setup w = (Return c, w1) ->
  c = fresh_context project schema pcb output kicad_path w /\
  output ∈ dirs (fs w1) /\
  terminal w1 = (terminal w ++ [using_line c])%list /\
  invocations w1 = invocations w /\
  progress w1 = progress w /\
  (output ∈ dirs (fs w) -> force = true).
Proof.
  rewrite setup_run. intros H.
  destruct (bool_decide (output ∈ dirs (fs w))) eqn:Hdir; cbn [andb] in H.
  - destruct force; cbn [negb] in H; [|discriminate H].
    unfold os_makedirs in H.
    repeat match type of H with
           | context [if ?b then _ else _] => destruct b eqn:?; try discriminate H
           end.
    injection H as <- <-. cbn. repeat split; try reflexivity. set_solver.
  - unfold os_makedirs in H.
    repeat match type of H with
           | context [if ?b then _ else _] => destruct b eqn:?; try discriminate H
           end.
    injection H as <- <-. cbn. repeat split; try reflexivity; [set_solver|].
    intros Hin. apply bool_decide_eq_false in Hdir. contradiction.
Qed.

(** X12: whenever the set-up returns, the context it returns is the one
    described by [fresh_context]: the tool, schema and board given on the
    command line, where an empty text counts as not given, or else their
    defaults, and an empty dict of fix-ups.  The output directory exists
    then, one line naming tool, board and schema has been printed, and no
    process has been started.  If the directory existed before, the force
    flag was set. *)
Theorem setup_context (w : World) (c : ScriptExecutionContext) (w1 : World) :
  setup w = (Return c, w1) ->
  c = fresh_context project schema pcb output kicad_path w /\
  output ∈ dirs (fs w1) /\
  terminal w1 = (terminal w ++ [using_line c])%list /\
  invocations w1 = invocations w /\
  progress w1 = progress w /\
  (output ∈ dirs (fs w) -> force = true).
Proof. exact (setup_Return w c w1). Qed.


End Setup.

(** No schema is given, the tool is given as an empty text and the board as
    [main.kicad_pcb]; the bundle of the application is not there. *)
Lemma setup_context_witness :
  fresh_context "proj/board" None (Some "main.kicad_pcb") "fab" (Some EmptyString)
                Sample.empty_world
  = mkEC "kicad-cli" "fab" "proj/board/main.kicad_pcb" "proj/board/board.kicad_sch"
         "board" ∅ /\
  "fab" ∈ dirs (fs (generate_fab_setup "proj/board" None (Some "main.kicad_pcb") "fab" false
                      (Some EmptyString) Sample.empty_world).2) /\
  terminal (generate_fab_setup "proj/board" None (Some "main.kicad_pcb") "fab" false
              (Some EmptyString) Sample.empty_world).2
  = ["Using kicad-cli to generate fabraction outputs for PCB proj/board/main.kicad_pcb and schema proj/board/board.kicad_sch"].
Proof.
  destruct (setup_context "proj/board" None (Some "main.kicad_pcb") "fab" false
              (Some EmptyString) Sample.empty_world
              (fresh_context "proj/board" None (Some "main.kicad_pcb") "fab"
                 (Some EmptyString) Sample.empty_world)
              (generate_fab_setup "proj/board" None (Some "main.kicad_pcb") "fab" false
                 (Some EmptyString) Sample.empty_world).2)
    as (_ & Hdir & Hterminal & _).
  - vm_compute. reflexivity.
  - split; [vm_compute; reflexivity|]. split; [exact Hdir|].
    rewrite Hterminal. vm_compute. reflexivity.
Defined.


(** ** The command as a whole *)

Section WholeCommand.

Variable execute : list string -> FileSystem -> ProcOutcome.
Variable csv_reader : string -> list (list string).
Variable glob_glob : string -> FileSystem -> list string.
Variables (project : string) (schema pcb : option string) (output : string).
Variables (force : bool) (kicad_path : option string).

Local Abbreviation setup :=
  (generate_fab_setup project schema pcb output force kicad_path).
Local Abbreviation body :=
  (generate_fab_body execute csv_reader glob_glob project schema pcb output force kicad_path).

(** X14: when the output directory exists and the force flag is off, the
    command returns 1 and has done nothing but print the two lines of its
    error: no file or directory is removed or created and no process is
    started. *)
Theorem generate_fab_keeps_existing_output (w : World) :
  output ∈ dirs (fs w) ->
  force = false ->
  generate_fab execute csv_reader glob_glob project schema pcb output force kicad_path w
  = (Return (Some 1),
     mkWorld (fs w) (invocations w)
       (terminal w ++
          [style_red (dq +:+ output +:+ dq +:+ " already exists.");
           "Use --fore to remove and re-create, or --output to specify a different path"])
       (progress w)).
Proof.
  intros Hdir Hforce. rewrite command_of_body.
  unfold generate_fab_body, bind. rewrite setup_run, Hforce.
  rewrite (bool_decide_eq_true_2 _ Hdir). cbn [andb negb].
  unfold output_exists_error. rewrite <- app_assoc. reflexivity.
Qed.

(** X15: when the output path is not a directory but a file of that name
    exists, the command raises [FileExistsError] from [os.makedirs], with or
    without the force flag: the handler does not catch it and nothing at all
    has changed or been printed. *)
Theorem generate_fab_output_is_file (w : World) :
  output ∉ dirs (fs w) ->
  is_Some (files (fs w) !! output) ->
  output <> EmptyString ->
  generate_fab execute csv_reader glob_glob project schema pcb output force kicad_path w
  = (Raise (FileExistsError output), w).
Proof.
  intros Hdir Hfile Hne. rewrite command_of_body.
  unfold generate_fab_body, bind. rewrite setup_run.
  rewrite (bool_decide_eq_false_2 _ Hdir). cbn [andb].
  unfold os_makedirs.
  assert (Htruthy : str_truthy output = true) by (destruct output; [contradiction|reflexivity]).
  rewrite Htruthy. cbn [negb].
  rewrite (bool_decide_eq_false_2 _ Hdir), (bool_decide_eq_true_2 _ Hfile). reflexivity.
Qed.

(** When the [try] block returns: the set-up, the steps, the last line. *)
Lemma body_Return_inv (w : World) v (w' : World) :
  body w = (Return v, w') ->
  exists c w1 r2,
    setup w = (Return c, w1) /\
    run_steps (steps execute csv_reader glob_glob) (mkRun c w1) = (Return tt, r2) /\
    w' = mkWorld (fs (world r2)) (invocations (world r2))
                 (terminal (world r2) ++ ["Done."]) (progress (world r2)).
Proof.
  unfold generate_fab_body. intros H.
  apply bind_Return in H as (c & w1 & Hsetup & H).
  apply bind_Return in H as ([] & w2 & Hsteps & H).
  apply bind_Return in H as ([] & w3 & Hecho & H).
  injection Hecho as <-. injection H as _ <-.
  unfold with_context in Hsteps.
  destruct (run_steps _ (mkRun c w1)) as [x r2] eqn:Hrun.
  injection Hsteps as -> <-. eauto 6.
Qed.

Lemma command_Return_None (w w' : World) :
  generate_fab execute csv_reader glob_glob project schema pcb output force kicad_path w
    = (Return None, w') ->
  body w = (Return None, w').
Proof.
  rewrite command_of_body.
  destruct (body w) as [[v|[]] w1]; intros H; try discriminate H; exact H.
Qed.

Lemma run_steps_invocations_length (l : list Step) r r' :
  Forall (fun s => forall r, length (invocations (world (step_fn s r).2))
                             = S (length (invocations (world r)))) l ->
  run_steps l r = (Return tt, r') ->
  length (invocations (world r')) = (length (invocations (world r)) + length l)%nat.
Proof.
  intros Hl. revert r. induction Hl as [|s l Hs Hl IH]; intros r Hrun.
  - injection Hrun as <-. cbn. lia.
  - apply run_steps_cons_Return in Hrun as (r1 & Hstep & Hrest).
    rewrite (IH _ Hrest).
    pose proof (Hs (shown (step_title s) r)) as H. rewrite Hstep in H. cbn in H.
    rewrite H. cbn. lia.
Qed.

(** X16: a run of the command that returns [None] has printed exactly two
    lines, the one that names tool, board and schema and the completion
    message; has shown the six titles in order; and has started exactly six
    processes. *)
Theorem generate_fab_success_trace (w w' : World) :
  generate_fab execute csv_reader glob_glob project schema pcb output force kicad_path w
    = (Return None, w') ->
  terminal w'
    = (terminal w ++
       [using_line (fresh_context project schema pcb output kicad_path w); "Done."])%list /\
  progress w'
    = (progress w ++
       [ "Generate gerbers"; "Generate drill"; "Archive PCB fabrication outputs";
         "Generate BOM"; "Load pick-and-place fixup mappings";
         "Generate and fixup pick-and-place" ])%list /\
  length (invocations w') = (length (invocations w) + 6)%nat.
Proof.
  intros H. apply command_Return_None, body_Return_inv in H
    as (c & w1 & r2 & Hsetup & Hrun & ->).
  apply setup_Return in Hsetup as (-> & _ & Hterminal & Hinv & Hprogress & _).
  cbn [terminal progress invocations].
  split; [|split].
  - pose proof (run_steps_preserves (on_world same_terminal)
                  (steps execute csv_reader glob_glob)
                  ltac:(intros title; apply io_on_world; intros w0; reflexivity)
                  (steps_same_terminal execute csv_reader glob_glob)
                  (mkRun (fresh_context project schema pcb output kicad_path w) w1)) as Ht.
    rewrite Hrun in Ht. unfold on_world, same_terminal in Ht. cbn in Ht.
    rewrite Ht, Hterminal, <- app_assoc. reflexivity.
  - rewrite (run_steps_progress _ _ _ (steps_same_progress execute csv_reader glob_glob) Hrun).
    cbn [world progress]. rewrite Hprogress. reflexivity.
  - assert (Hone : Forall (fun s => forall r,
                       length (invocations (world (step_fn s r).2))
                       = S (length (invocations (world r))))
                     (steps execute csv_reader glob_glob)).
    { eapply Forall_impl; [apply (steps_invocations execute csv_reader glob_glob)|].
      intros s Hs r. destruct (Hs r) as (command_args & -> & _).
      rewrite length_app. cbn. lia. }
    rewrite (run_steps_invocations_length _ _ _ Hone Hrun).
    cbn. rewrite Hinv. reflexivity.
Qed.

End WholeCommand.

(** The directory [fab] is there and holds a file. *)
Lemma generate_fab_keeps_existing_output_witness :
  generate_fab Sample.tool_ok Sample.csv_reader Sample.glob_glob
    "board" None None "fab" false None
    (mkWorld (mkFS {[ "fab/old.pos" := "x" ]} {[ "fab" ]}) [] [] [])
  = (Return (Some 1),
     mkWorld (mkFS {[ "fab/old.pos" := "x" ]} {[ "fab" ]}) []
       [style_red (dq +:+ "fab" +:+ dq +:+ " already exists.");
        "Use --fore to remove and re-create, or --output to specify a different path"]
       []).
Proof.
  apply (generate_fab_keeps_existing_output Sample.tool_ok Sample.csv_reader Sample.glob_glob
           "board" None None "fab" false None
           (mkWorld (mkFS {[ "fab/old.pos" := "x" ]} {[ "fab" ]}) [] [] [])).
  - cbn. set_solver.
  - reflexivity.
Defined.

(** A file called [fab] is in the way, and the force flag is set. *)
Lemma generate_fab_output_is_file_witness :
  generate_fab Sample.tool_ok Sample.csv_reader Sample.glob_glob
    "board" None None "fab" true None
    (mkWorld (mkFS {[ "fab" := "x" ]} ∅) [] [] [])
  = (Raise (FileExistsError "fab"), mkWorld (mkFS {[ "fab" := "x" ]} ∅) [] [] []).
Proof.
  apply (generate_fab_output_is_file Sample.tool_ok Sample.csv_reader Sample.glob_glob
           "board" None None "fab" true None
           (mkWorld (mkFS {[ "fab" := "x" ]} ∅) [] [] [])).
  - cbn. set_solver.
  - eexists. apply lookup_singleton_eq.
  - discriminate.
Defined.

(** The whole command on the sample tool. *)
Lemma generate_fab_success_trace_witness :
  terminal (generate_fab Sample.tool_ok Sample.csv_reader Sample.glob_glob
              "board" None None "fab" false None Sample.empty_world).2
  = ["Using kicad-cli to generate fabraction outputs for PCB board/board.kicad_pcb and schema board/board.kicad_sch";
     "Done."] /\
  length (invocations
            (generate_fab Sample.tool_ok Sample.csv_reader Sample.glob_glob
               "board" None None "fab" false None Sample.empty_world).2) = 6%nat.
Proof.
  destruct (generate_fab_success_trace Sample.tool_ok Sample.csv_reader Sample.glob_glob
              "board" None None "fab" false None Sample.empty_world
              (generate_fab Sample.tool_ok Sample.csv_reader Sample.glob_glob
                 "board" None None "fab" false None Sample.empty_world).2)
    as (Hterminal & _ & Hlength).
  - vm_compute. reflexivity.
  - split; [rewrite Hterminal; vm_compute; reflexivity|exact Hlength].
Defined.

Section FinalFiles.

Variable execute : list string -> FileSystem -> ProcOutcome.
Variable csv_reader : string -> list (list string).
Variable glob_glob : string -> FileSystem -> list string.

(** When the placement step returns, its final file is there. *)
Lemma generate_pos_Return_final_file (r r' : Run) :
  generate_pos execute csv_reader r = (Return tt, r') ->
  project_base (ec r) <> "pre-fixup-pos" ->
  is_Some (files (fs (world r')) !! pos_filename (ec r)).
Proof.
  destruct r as [c w]. cbn [ec]. intros Hrun Hbase. unfold generate_pos in Hrun.
  apply bind_Return in Hrun as (c0 & r0 & Hget & Hrun). injection Hget as <- <-.
  apply try_finally_Return in Hrun as (r1 & Hbody & Hclean).
  apply bind_Return in Hbody as ([] & r2 & _ & Hbody).
  apply bind_Return in Hbody as (text & r3 & _ & Hbody).
  apply bind_Return in Hbody as ([header rows] & r4 & _ & Hbody).
  apply bind_Return in Hbody as ([] & r5 & Hw0 & Hbody).
  apply io_inv in Hw0 as (w5 & Hw0 & ->). injection Hw0 as <-.
  apply bind_Return in Hbody as ([] & r6 & Hw1 & Hbody).
  apply io_inv in Hw1 as (w6 & Hw1 & ->). injection Hw1 as <-.
  apply bind_Return in Hbody as ([] & r7 & Hw2 & Hbody).
  apply io_inv in Hw2 as (w7 & Hw2 & ->). injection Hw2 as <-.
  cbn [ec world snd] in Hbody.
  apply (write_rows_Return _ _ _ _
           ("Designator,Val,Package,Mid X,Mid Y,Rotation,Layer" +:+ nl))
    in Hbody as (outs & _ & _ & Hfile).
  2:{ cbn. rewrite !lookup_alter_eq, lookup_insert_eq. reflexivity. }
  apply io_inv in Hclean as (w8 & Hclean & ->).
  unfold os_remove in Hclean.
  destruct (files (fs (world r1)) !! (output c +:+ "/pre-fixup-pos.pos")); [|discriminate].
  injection Hclean as <-. cbn.
  rewrite lookup_delete_ne by (apply pos_filename_ne, Hbase).
  eexists. exact Hfile.
Qed.

(** X17: after a run of the command that returns [None], the temporary
    placement export is not in the output directory, and the final placement
    file, named after the project folder, is there (the folder not being
    called like the temporary file). *)
Theorem generate_fab_success_files (project : string) (schema pcb : option string)
    (output : string) (force : bool) (kicad_path : option string) (w w' : World) :
  generate_fab execute csv_reader glob_glob project schema pcb output force kicad_path w
    = (Return None, w') ->
  files (fs w') !! (output +:+ "/pre-fixup-pos.pos") = None /\
  (basename project <> "pre-fixup-pos" ->
   is_Some (files (fs w') !! (output +:+ "/" +:+ basename project +:+ ".pos"))).
Proof.
  intros H. apply command_Return_None, body_Return_inv in H
    as (c & w1 & r & Hsetup & Hrun & ->).
  apply setup_Return in Hsetup as (-> & _).
  cbn [fs]. unfold steps, script_step in Hrun.
  apply run_steps_cons_Return in Hrun as (r1 & H1 & Hrun).
  apply run_steps_cons_Return in Hrun as (r2 & H2 & Hrun).
  apply run_steps_cons_Return in Hrun as (r3 & H3 & Hrun).
  apply run_steps_cons_Return in Hrun as (r4 & H4 & Hrun).
  apply run_steps_cons_Return in Hrun as (r5 & H5 & Hrun).
  apply run_steps_cons_Return in Hrun as (r6 & H6 & Hrun).
  injection Hrun as <-. cbn [step_fn step_title] in *.
  pose proof (generate_gerbers_same_context execute (shown "Generate gerbers"
                (mkRun (fresh_context project schema pcb output kicad_path w) w1))) as E1.
  rewrite H1 in E1.
  pose proof (generate_drill_same_context execute (shown "Generate drill" r1)) as E2.
  rewrite H2 in E2.
  pose proof (archive_pcb_same_context execute glob_glob
                (shown "Archive PCB fabrication outputs" r2)) as E3.
  rewrite H3 in E3.
  pose proof (generate_bom_same_context execute (shown "Generate BOM" r3)) as E4.
  rewrite H4 in E4.
  pose proof (load_pos_fixups_same_config execute csv_reader
                (shown "Load pick-and-place fixup mappings" r4)) as E5.
  rewrite H5 in E5.
  unfold same_context in *. destruct E5 as (_ & Eout & _ & _ & Ebase).
  cbn [snd shown ec] in *.
  rewrite E4, E3, E2, E1 in Eout, Ebase. cbn in Eout, Ebase.
  split.
  - pose proof (generate_pos_temp_absent execute csv_reader
                  (shown "Generate and fixup pick-and-place" r5)) as Habsent.
    rewrite H6 in Habsent. unfold pre_fixup_pos_filename in Habsent.
    cbn [snd shown ec] in Habsent. rewrite Eout in Habsent. exact Habsent.
  - intros Hbase.
    pose proof (generate_pos_Return_final_file _ _ H6) as Hfile.
    unfold pos_filename in Hfile. cbn [shown ec] in Hfile.
    rewrite Eout, Ebase in Hfile. apply Hfile. exact Hbase.
Qed.

End FinalFiles.

(** The whole command on the sample tool. *)
Lemma generate_fab_success_files_witness :
  files (fs (generate_fab Sample.tool_ok Sample.csv_reader Sample.glob_glob
               "board" None None "fab" false None Sample.empty_world).2)
    !! "fab/pre-fixup-pos.pos" = None /\
  is_Some (files (fs (generate_fab Sample.tool_ok Sample.csv_reader Sample.glob_glob
                        "board" None None "fab" false None Sample.empty_world).2)
             !! "fab/board.pos").
Proof.
  destruct (generate_fab_success_files Sample.tool_ok Sample.csv_reader Sample.glob_glob
              "board" None None "fab" false None Sample.empty_world
              (generate_fab Sample.tool_ok Sample.csv_reader Sample.glob_glob
                 "board" None None "fab" false None Sample.empty_world).2)
    as (Habsent & Hfinal).
  - vm_compute. reflexivity.
  - split; [exact Habsent|]. apply Hfinal. discriminate.
Defined.

(** ** A command that fails *)

Section FailingCommand.

Variable execute : list string -> FileSystem -> ProcOutcome.
Variable csv_reader : string -> list (list string).
Variable glob_glob : string -> FileSystem -> list string.
Variables (project : string) (schema pcb : option string) (output : string).
Variables (force : bool) (kicad_path : option string).

(** X20: when the set-up has returned and the gerber export, the first
    command, ends with a status other than 0 and output that decodes, the
    command function returns 2: the one title shown is that of the first
    step, the one process asked for is the export, the files are as the
    tool left them, and the last two lines printed are the highlighted
    title naming the command and the tool's output.  No later step runs.
    The script as a program ends with status 0 all the same. *)
Theorem generate_fab_gerbers_failure (w : World) (c : ScriptExecutionContext) (w1 : World)
    (cp : CompletedProcess) (fs' : FileSystem) (details : string) :
  generate_fab_setup project schema pcb output force kicad_path w = (Return c, w1) ->
  execute (gerbers_export_args c) (fs w1) = Exited cp fs' ->
  returncode cp <> 0 ->
  decode (stdout cp) = Return details ->
  generate_fab execute csv_reader glob_glob project schema pcb output force kicad_path w
  = (Return (Some 2),
     mkWorld fs' (invocations w1 ++ [gerbers_export_args c])
       (terminal w1 ++
          [style_red ("Error executing command " +:+ join " " (gerbers_export_args c));
           details])
       (progress w1 ++ ["Generate gerbers"])) /\
  (main execute csv_reader glob_glob project schema pcb output force kicad_path w).1 = 0.
Proof.
  intros Hsetup Hexec Hrc Hdecode.
  assert (Hrun : generate_fab execute csv_reader glob_glob project schema pcb output force
                   kicad_path w
                 = (Return (Some 2),
                    mkWorld fs' (invocations w1 ++ [gerbers_export_args c])
                      (terminal w1 ++
                         [style_red ("Error executing command "
                                     +:+ join " " (gerbers_export_args c));
                          details])
                      (progress w1 ++ ["Generate gerbers"]))).
  { assert (Hsteps : run_steps (steps execute csv_reader glob_glob) (mkRun c w1)
                     = (Raise (ScriptError ("Error executing command "
                                            +:+ join " " (gerbers_export_args c)) details 2),
                        mkRun c (mkWorld fs' (invocations w1 ++ [gerbers_export_args c])
                                   (terminal w1) (progress w1 ++ ["Generate gerbers"])))).
    { unfold steps. rewrite run_steps_cons. cbn [script_step step_fn step_title].
      unfold generate_gerbers, bind, get_ec, io. cbn [shown ec world].
      fold (gerbers_export_args c).
      rewrite (run_command_result execute (gerbers_export_args c) _ cp fs') by exact Hexec.
      unfold command_result. apply Z.eqb_neq in Hrc. rewrite Hrc, Hdecode. reflexivity. }
    rewrite command_of_body. unfold generate_fab_body. unfold bind at 1. rewrite Hsetup.
    unfold bind at 1, with_context. rewrite Hsteps.
    cbn. rewrite <- app_assoc. reflexivity. }
  split; [exact Hrun|]. unfold main. rewrite Hrun. reflexivity.
Qed.

End FailingCommand.

(** The gerber export ends with status 1 after writing "boom". *)
Lemma generate_fab_gerbers_failure_witness :
  generate_fab (Sample.tool_failing "gerbers" Sample.boom) Sample.csv_reader Sample.glob_glob
    "board" None None "fab" false None Sample.empty_world
  = (Return (Some 2),
     mkWorld (mkFS ∅ {[ "fab" ]}) [gerbers_export_args Sample.context]
       [using_line Sample.context;
        style_red ("Error executing command " +:+ join " " (gerbers_export_args Sample.context));
        "boom"]
       ["Generate gerbers"]) /\
  (main (Sample.tool_failing "gerbers" Sample.boom) Sample.csv_reader Sample.glob_glob
     "board" None None "fab" false None Sample.empty_world).1 = 0.
Proof.
  apply (generate_fab_gerbers_failure (Sample.tool_failing "gerbers" Sample.boom)
           Sample.csv_reader Sample.glob_glob "board" None None "fab" false None
           Sample.empty_world Sample.context
           (mkWorld (mkFS ∅ {[ "fab" ]}) [] [using_line Sample.context] [])
           (mkCP 1 Sample.boom) (mkFS ∅ {[ "fab" ]}) "boom").
  - vm_compute. reflexivity.
  - vm_compute. reflexivity.
  - discriminate.
  - vm_compute. reflexivity.
Defined.
